(** * ExZodOs: the validating Express router and the Axios request builder

    A shallow embedding of [ExZodOsRouter.new] (request and response
    validation middleware injected at route registration) and of
    [ExZodOsClient.buildAxiosConfig] / [replacePathParams], followed by the
    properties of the two that the specification states. *)

From Stdlib Require Import ZArith String Ascii List Lia DecimalString.
From stdpp Require Import base option list gmap strings.
Import ListNotations.

Set Warnings "-register-all".
Local Open Scope string_scope.
Local Open Scope list_scope.

(** ** JavaScript values and the built-ins the code calls *)

Module JS.

(** A JSON-like JavaScript value.  Numbers are the integer-valued ones;
    objects keep their own enumerable properties in [Object.keys] order. *)
Inductive Json : Type :=
| JUndefined
| JNull
| JBool (b : bool)
| JNum (n : Z)
| JStr (s : string)
| JArr (items : list Json)
| JObj (fields : list (string * Json)).

(** [a ?? b] *)
Definition isNullish (v : Json) : bool :=
  match v with
  | JUndefined | JNull => true
  | _ => false
  end.

Definition nullish (a b : Json) : Json := if isNullish a then b else a.

(** [Number.prototype.toString] on an integer (decimal digits, a leading
    minus sign for negatives); also the property key a number indexes an
    object with.  This is what JavaScript prints for an integer of
    magnitude below 10^21; from there on it prints exponent notation, which
    this function does not give. *)
Definition numberToString (n : Z) : string :=
  NilZero.string_of_int (Z.to_int n).

(** [String.prototype.indexOf] *)
Definition indexOf (pattern s : string) : option nat := String.index 0 pattern s.

(** The replacement-text expansion of [String.prototype.replace] for a
    string pattern (ECMAScript GetSubstitution with no capture groups):
    [$$] is a dollar sign, [$&] the matched text, [$`] the text before the
    match, [$'] the text after it; every other character, a [$] followed
    by anything else included, stands for itself. *)
Fixpoint getSubstitution (matched before after template : string) : string :=
  match template with
  | EmptyString => EmptyString
  | String c rest =>
      if Ascii.eqb c "$" then
        match rest with
        | String d rest' =>
            if Ascii.eqb d "$" then String "$" (getSubstitution matched before after rest')
            else if Ascii.eqb d "&" then matched +:+ getSubstitution matched before after rest'
            else if Ascii.eqb d "`" then before +:+ getSubstitution matched before after rest'
            else if Ascii.eqb d "'" then after +:+ getSubstitution matched before after rest'
            else String c (getSubstitution matched before after rest)
        | EmptyString => String c EmptyString
        end
      else String c (getSubstitution matched before after rest)
  end.

(** [s.replace(pattern, replacement)] with a string [pattern]: only the
    first occurrence of [pattern] is replaced; without one, [s] comes back
    as it is. *)
Definition replace (s pattern replacement : string) : string :=
  match indexOf pattern s with
  | None => s
  | Some i =>
      let before := substring 0 i s in
      let after := substring (i + String.length pattern)
                             (String.length s - (i + String.length pattern)) s in
      before +:+ getSubstitution pattern before after replacement +:+ after
  end.

End JS.

(** ** Zod: the schema capability *)

Module Zod.
Import JS.

(** What a failed [parse] throws. *)
Record ZodError : Type := { issues : list string }.

Inductive Result (A : Type) : Type :=
| Ok (value : A)
| Throw (err : ZodError).
Arguments Ok {A} value.
Arguments Throw {A} err.

(** A schema is whatever its [parse] does: the parsed output, or a throw. *)
Record ZodType : Type := { parse : Json -> Result Json }.

(** [z.object({})].  Zod object schemas accept any plain object and strip
    the keys the shape does not declare (only [.strict()] rejects them),
    so with an empty shape every object parses to the empty object;
    anything that is not a plain object is an [invalid_type] issue. *)
Definition object_empty : ZodType :=
  {| parse input :=
       match input with
       | JObj _ => Ok (JObj [])
       | _ => Throw {| issues := ["invalid_type"] |}
       end |}.

(** [schema.optional()]: [undefined] passes through, the rest goes to
    [schema]. *)
Definition optional (schema : ZodType) : ZodType :=
  {| parse input :=
       match input with
       | JUndefined => Ok JUndefined
       | _ => parse schema input
       end |}.

End Zod.

(** ** core/index.ts: the API definition *)

Module Core.
Import Zod.

Inductive Method : Type := GET | POST | PUT | DELETE | PATCH.

Definition METHODS : list Method := [GET; POST; PUT; DELETE; PATCH].

(** The property name a method indexes a path entry with. *)
Definition methodName (m : Method) : string :=
  match m with
  | GET => "get"
  | POST => "post"
  | PUT => "put"
  | DELETE => "delete"
  | PATCH => "patch"
  end.

Record RequestSchemas : Type := {
  header : option ZodType;
  cookie : option ZodType;
  path : option ZodType;
  query : option ZodType;
  body : option ZodType
}.

(** [response] is keyed by the status code's property name or by
    ["default"]; an entry may hold [undefined]. *)
Record RouteDescription : Type := {
  request : RequestSchemas;
  response : gmap string (option ZodType)
}.

(** [Api = Record<string, { [M in Method]?: RouteDescription }>] *)
Abbreviation Api := (gmap string (gmap string RouteDescription)).

End Core.

(** ** Express: request, response and the effects of a middleware *)

Module Express.
Import JS Zod.

(** The parts of [express.Request] the router touches, and some it does
    not. *)
Record Request : Type := {
  params : Json;
  query : Json;
  body : Json;
  headers : Json;
  cookies : Json;
  originalUrl : string
}.

(** What a request's handling did, in order: a schema's [parse] was called
    (for which part, on which input), the router's [errorHandler] was
    called, Express sent a JSON body under a status code. *)
Inductive Event : Type :=
| EvParse (part : string) (input : Json)
| EvErrorHandler (err : ZodError) (req : Request)
| EvSend (status : Z) (sent : Json).

(** [express.Response].  [json] is the current value of [res.json]:
    Express's own method under the overrides installed so far, the
    outermost first; an override is determined by the [response] map its
    closure holds.  [trace] records the events of this request. *)
Record Response : Type := {
  statusCode : Z;
  json : list (gmap string (option ZodType));
  trace : list Event
}.

Definition State : Type := Request * Response.

(** A piece of middleware code: it runs on the request and response of
    the call, may change both, and returns or throws. *)
Definition Eff (A : Type) : Type := State -> Result A * State.

Definition ret {A} (a : A) : Eff A := fun st => (Ok a, st).

Definition bind {A B} (c : Eff A) (k : A -> Eff B) : Eff B :=
  fun st =>
    match c st with
    | (Ok a, st') => k a st'
    | (Throw err, st') => (Throw err, st')
    end.

(** [try { body } catch (err) { handler }]: what [body] did to the state
    before it threw stays done. *)
Definition try_catch {A} (body : Eff A) (handler : ZodError -> Eff A) : Eff A :=
  fun st =>
    match body st with
    | (Ok a, st') => (Ok a, st')
    | (Throw err, st') => handler err st'
    end.

Definition getReq : Eff Request := fun st => (Ok (fst st), st).
Definition getRes : Eff Response := fun st => (Ok (snd st), st).
Definition setReq (req : Request) : Eff unit := fun st => (Ok tt, (req, snd st)).
Definition setRes (res : Response) : Eff unit := fun st => (Ok tt, (fst st, res)).

Definition record (ev : Event) : Eff unit :=
  fun st =>
    let res := snd st in
    (Ok tt, (fst st, {| statusCode := statusCode res; json := json res;
                        trace := trace res ++ [ev] |})).

(** [schema.parse(input)] *)
Definition zparse (part : string) (schema : ZodType) (input : Json) : Eff Json :=
  fun st =>
    match record (EvParse part input) st with
    | (_, st') => (parse schema input, st')
    end.

(** [res.status(code)] *)
Definition status (code : Z) : Eff unit :=
  fun st =>
    let res := snd st in
    (Ok tt, (fst st, {| statusCode := code; json := json res; trace := trace res |})).

(** [throw err] *)
Definition throw {A} (err : ZodError) : Eff A := fun st => (Throw err, st).

(** Express's own [res.json]: the body is sent under the status code the
    response has at that moment.  This is the first send of a response;
    Express refuses a send once the headers are out. *)
Definition expressJson (sent : Json) : Eff unit :=
  fun st => record (EvSend (statusCode (snd st)) sent) st.

End Express.

Declare Scope eff_scope.
Delimit Scope eff_scope with eff.
Notation "x <- c1 ;; c2" := (Express.bind c1 (fun x => c2))
  (at level 100, c1 at next level, right associativity) : eff_scope.
Notation "c1 ;;; c2" := (Express.bind c1 (fun _ => c2))
  (at level 100, right associativity) : eff_scope.

(** ** router: [ExZodOsRouter.new] *)

Module ExZodOsRouter.
Import JS Zod Core Express.
Local Open Scope eff_scope.

(** What the code of a handler does with [res] and [next]. *)
Inductive ResCall : Type :=
| CallStatus (code : Z)
| CallJson (sent : Json).

Inductive Call : Type :=
| OnRes (c : ResCall)
| CallNext.

(** A user handler, by the calls it makes for a request and response. *)
Definition Handler : Type := Request -> Response -> list Call.

(** The [config] of [ExZodOsRouter.new].  [errorHandler] is given, for an
    error, a request and a response, by the calls it makes on [res] and by
    what it throws after them, if it throws. *)
Record RouterConfig : Type := {
  attachResponseValidator : bool;
  skipRequestBodyValidation : bool;
  errorHandler : ZodError -> Request -> Response -> list ResCall * option ZodError
}.

Definition setParams (v : Json) : Eff unit :=
  fun st =>
    let req := fst st in
    (Ok tt, ({| params := v; query := query req; body := Express.body req;
                headers := headers req; cookies := cookies req;
                originalUrl := originalUrl req |}, snd st)).

Definition setQuery (v : Json) : Eff unit :=
  fun st =>
    let req := fst st in
    (Ok tt, ({| params := params req; query := v; body := Express.body req;
                headers := headers req; cookies := cookies req;
                originalUrl := originalUrl req |}, snd st)).

Definition setBody (v : Json) : Eff unit :=
  fun st =>
    let req := fst st in
    (Ok tt, ({| params := params req; query := query req; body := v;
                headers := headers req; cookies := cookies req;
                originalUrl := originalUrl req |}, snd st)).

(** The body the response validator sends in place of one that is out of
    the API's schema. *)
Definition outOfSpecBody : Json :=
  JObj [("status", JStr "Internal server error");
        ("message", JStr "Server generated response is out of API spec")].

(** The function the response validator assigns to [res.json];
    [originalJson] is the value [res.json] had before.  The status code is
    an integer, the body a JSON value Express can send. *)
Definition validatedJson (response : gmap string (option ZodType))
           (originalJson : Json -> Eff unit) (sent : Json) : Eff unit :=
  try_catch
    (res <- getRes ;;
     parsed <- match response !! numberToString (statusCode res) with
               | Some (Some schema) => zparse "response" schema sent
               | _ => ret JUndefined
               end ;;
     let parsedBody := nullish parsed sent in
     originalJson parsedBody)
    (fun _ =>
       status 500%Z ;;;
       originalJson outOfSpecBody).

(** The function [res.json] holds after the overrides in [overrides]. *)
Fixpoint jsonOf (overrides : list (gmap string (option ZodType))) : Json -> Eff unit :=
  match overrides with
  | [] => expressJson
  | response :: inner => validatedJson response (jsonOf inner)
  end.

(** [res.json(sent)] *)
Definition resJson (sent : Json) : Eff unit :=
  fun st => jsonOf (json (snd st)) sent st.

Definition resCall (c : ResCall) : Eff unit :=
  match c with
  | CallStatus code => status code
  | CallJson sent => resJson sent
  end.

Fixpoint resCalls (cs : list ResCall) : Eff unit :=
  match cs with
  | [] => ret tt
  | c :: cs' => resCall c ;;; resCalls cs'
  end.

(** [config.errorHandler(err, req, res)] *)
Definition callErrorHandler (config : RouterConfig) (err : ZodError) : Eff unit :=
  req <- getReq ;;
  res <- getRes ;;
  record (EvErrorHandler err req) ;;;
  resCalls (fst (errorHandler config err req res)) ;;;
  match snd (errorHandler config err req res) with
  | Some thrown => throw thrown
  | None => ret tt
  end.

(** The statements of the request validator's [try] block that come before
    [return next()]. *)
Definition validateRequestParts (routeDescription : RouteDescription)
           (config : RouterConfig) : Eff unit :=
  req <- getReq ;;
  p <- match path (request routeDescription) with
       | Some schema => zparse "path" schema (params req)
       | None => zparse "path" object_empty (params req)
       end ;;
  setParams p ;;;
  req <- getReq ;;
  q <- match Core.query (request routeDescription) with
       | Some schema => zparse "query" schema (Express.query req)
       | None => zparse "query" object_empty (Express.query req)
       end ;;
  setQuery q ;;;
  if negb (skipRequestBodyValidation config) then
    req <- getReq ;;
    b <- match Core.body (request routeDescription) with
         | Some schema => zparse "body" schema (Express.body req)
         | None => zparse "body" (optional object_empty) (Express.body req)
         end ;;
    setBody b
  else ret tt.

(** The request validation middleware of a described route. *)
Definition requestValidator (routeDescription : RouteDescription)
           (config : RouterConfig) (next : Eff unit) : Eff unit :=
  try_catch
    (validateRequestParts routeDescription config ;;;
     next)
    (fun err => callErrorHandler config err).

(** The response validation middleware of a described route: it puts
    [validatedJson] over the current [res.json] and goes on. *)
Definition responseValidator (routeDescription : RouteDescription)
           (next : Eff unit) : Eff unit :=
  res <- getRes ;;
  setRes {| statusCode := statusCode res;
            json := response routeDescription :: json res;
            trace := trace res |} ;;;
  next.

(** What a route's stack holds. *)
Inductive Middleware : Type :=
| RequestValidator (routeDescription : RouteDescription) (config : RouterConfig)
| ResponseValidator (routeDescription : RouteDescription)
| UserHandler (h : Handler).

(** An argument of Express's [router.METHOD(path, ...)]: a handler or an
    array of handlers. *)
Inductive HandlerArg : Type :=
| One (m : Middleware)
| Many (ms : list Middleware).

(** Express flattens the handler arguments into the route's stack. *)
Definition flatten (args : list HandlerArg) : list Middleware :=
  concat (map (fun a => match a with One m => [m] | Many ms => ms end) args).

Record Route : Type := {
  routeMethod : Method;
  routePath : string;
  stack : list Middleware
}.

(** [express.Router()], by the routes registered on it. *)
Definition Router : Type := list Route.

(** [router[method].bind(router)] of the untouched Express router. *)
Definition originalHandlerRegistrar (method : Method) (path : string)
           (args : list HandlerArg) (router : Router) : Router :=
  router ++ [{| routeMethod := method; routePath := path; stack := flatten args |}].

(** [apiDef[path]?.[method] ?? undefined] *)
Definition lookupRoute (apiDef : Api) (path : string) (method : Method)
  : option RouteDescription :=
  match apiDef !! path with
  | Some byMethod => byMethod !! methodName method
  | None => None
  end.

(** The arguments the overriding [router[method]] hands to the original
    registrar for [(path, ...handlers)]. *)
Definition registrarArgs (apiDef : Api) (config : RouterConfig) (method : Method)
           (path : string) (handlers : list Handler) : list HandlerArg :=
  match lookupRoute apiDef path method with
  | None => [Many (map UserHandler handlers)]
  | Some routeDescription =>
      if attachResponseValidator config then
        [One (RequestValidator routeDescription config);
         One (ResponseValidator routeDescription);
         Many (map UserHandler handlers)]
      else
        [One (RequestValidator routeDescription config);
         Many (map UserHandler handlers)]
  end.

(** [router[method](path, ...handlers)] on the router [ExZodOsRouter.new]
    returns. *)
Definition register (apiDef : Api) (config : RouterConfig) (method : Method)
           (path : string) (handlers : list Handler) (router : Router) : Router :=
  originalHandlerRegistrar method path
    (registrarArgs apiDef config method path handlers) router.

(** Running the calls of a user handler; [next] is the rest of the stack. *)
Fixpoint calls (next : Eff unit) (cs : list Call) : Eff unit :=
  match cs with
  | [] => ret tt
  | OnRes c :: cs' => resCall c ;;; calls next cs'
  | CallNext :: cs' => next ;;; calls next cs'
  end.

(** Express running a route's stack on a request: each middleware gets the
    rest of the stack as its [next]; past the last one, nothing of this
    route is left to run.  What a middleware throws leaves the stack (to
    Express's error handling). *)
Fixpoint dispatch (stack : list Middleware) : Eff unit :=
  match stack with
  | [] => ret tt
  | RequestValidator routeDescription config :: rest =>
      requestValidator routeDescription config (dispatch rest)
  | ResponseValidator routeDescription :: rest =>
      responseValidator routeDescription (dispatch rest)
  | UserHandler h :: rest =>
      req <- getReq ;;
      res <- getRes ;;
      calls (dispatch rest) (h req res)
  end.

End ExZodOsRouter.

(** ** client: the request builder of [ExZodOsClient] *)

Module ExZodOsClient.
Import JS Core.

(** A value of the [path] map: [string | number]. *)
Inductive PathValue : Type :=
| PathString (s : string)
| PathNumber (n : Z).

(** [value.toString()] *)
Definition toString (v : PathValue) : string :=
  match v with
  | PathString s => s
  | PathNumber n => numberToString n
  end.


(** A JavaScript object used as a record: its own properties in
    [Object.keys] order, each key once. *)
Definition Record_ (V : Type) : Type := list (string * V).

Definition keys {V} (o : Record_ V) : list string := map fst o.

(** [o[key]] *)
Fixpoint get {V} (o : Record_ V) (key : string) : option V :=
  match o with
  | [] => None
  | (k, v) :: o' => if String.eqb k key then Some v else get o' key
  end.

(** [o[key] = v]: an existing property keeps its place. *)
Fixpoint set {V} (o : Record_ V) (key : string) (v : V) : Record_ V :=
  match o with
  | [] => [(key, v)]
  | (k, v') :: o' => if String.eqb k key then (k, v) :: o' else (k, v') :: set o' key v
  end.

(** [{ ...o, ...more }] *)
Definition spread {V} (o more : Record_ V) : Record_ V :=
  fold_left (fun acc kv => set acc (fst kv) (snd kv)) more o.

Definition replacePathParams (url : string) (path : Record_ PathValue) : string :=
  fold_left
    (fun modifiedUrl key =>
       match get path key with
       | Some v => replace modifiedUrl (":" +:+ key) (toString v)
       | None => modifiedUrl
       end)
    (keys path) url.

(** A property value of a request descriptor: data, or the
    [paramsSerializer] function ([qs.stringify] with bracketed arrays). *)
Inductive AxiosValue : Type :=
| Val (j : Json)
| BracketsSerializer.

(** The [config] argument, split the way [buildAxiosConfig] destructures
    it; an absent property is [None]. *)
Record Config : Type := {
  path : option (Record_ PathValue);
  header : option Json;
  query : option Json;
  body : option Json;
  configRest : Record_ AxiosValue
}.

Definition orUndefined (o : option Json) : AxiosValue :=
  match o with
  | Some j => Val j
  | None => Val JUndefined
  end.

Definition buildAxiosConfig (method : Method) (path_ : string)
           (config : option Config) : Record_ AxiosValue :=
  match config with
  | None =>
      [("method", Val (JStr (methodName method)));
       ("url", Val (JStr path_))]
  | Some config =>
      spread
        [("method", Val (JStr (methodName method)));
         ("url", Val (JStr match path config with
                           | Some configPath => replacePathParams path_ configPath
                           | None => path_
                           end));
         ("headers", orUndefined (header config));
         ("params", orUndefined (query config));
         ("paramsSerializer", BracketsSerializer);
         ("data", orUndefined (body config))]
        (configRest config)
  end.

(** What a [catch] around a client call can get hold of: an
    [axios.AxiosError], with the optional [config] and [response] the
    discriminator reads, or anything else. *)
Record ErrorConfig : Type := {
  method : option string;
  url : option string
}.

Record ErrorResponse : Type := { status : Z }.

Record AxiosError : Type := {
  config : option ErrorConfig;
  response : option ErrorResponse
}.

Inductive Thrown : Type :=
| IsAxiosError (axiosErr : AxiosError)
| NotAxiosError (v : Json).

(** [a !== b] on an optional string and a string. *)
Definition differs (a : option string) (b : string) : bool :=
  match a with
  | Some a' => negb (String.eqb a' b)
  | None => true
  end.

Definition isErrorOf (err : Thrown) (method_ : Method) (path_ : string) (code : Z) : bool :=
  match err with
  | NotAxiosError _ => false
  | IsAxiosError axiosErr =>
      if differs (match config axiosErr with Some c => method c | None => None end)
                 (methodName method_)
      then false
      else if differs (match config axiosErr with Some c => url c | None => None end) path_
      then false
      else if match response axiosErr with
              | Some r => negb (Z.eqb (status r) code)
              | None => true
              end
      then false
      else true
  end.

(** The string under [key] of a request descriptor, if there is one. *)
Definition stringAt (o : Record_ AxiosValue) (key : string) : option string :=
  match get o key with
  | Some (Val (JStr s)) => Some s
  | _ => None
  end.

(** An Axios error that carries the method and url of the request
    [descriptor] as its [config] and [code] as the status of its
    [response]: what [axios.request] rejects with when the server answers
    that request with [code]. *)
Definition rejection (descriptor : Record_ AxiosValue) (code : Z) : Thrown :=
  IsAxiosError
    {| config := Some {| method := stringAt descriptor "method";
                         url := stringAt descriptor "url" |};
       response := Some {| status := code |} |}.

End ExZodOsClient.

(** ** The path substitution as the specification words it *)

Module Spec.
Import JS ExZodOsClient.





End Spec.


(** ** Events of a trace *)

Module Trace.
Import Express.

Definition isErrorHandlerEvent (ev : Event) : bool :=
  match ev with
  | EvErrorHandler _ _ => true
  | _ => false
  end.

Definition isParseEvent (ev : Event) : bool :=
  match ev with
  | EvParse _ _ => true
  | _ => false
  end.

Definition isSendEvent (ev : Event) : bool :=
  match ev with
  | EvSend _ _ => true
  | _ => false
  end.

(** [res] with [evs] added to its trace and nothing else touched. *)
Definition traced (res : Response) (evs : list Event) : Response :=
  {| statusCode := statusCode res; json := json res; trace := trace res ++ evs |}.

(** [res'] is [res] after some events that all satisfy [allowed]; [res.json]
    is the same function. *)
Definition extends (allowed : Event -> bool) (res res' : Response) : Prop :=
  json res' = json res /\
  exists evs, trace res' = trace res ++ evs /\ forallb allowed evs = true.

Definition notErrorHandlerEvent (ev : Event) : bool := negb (isErrorHandlerEvent ev).

(** [f] returns normally, leaves the request alone, and adds only [allowed]
    events. *)
Definition quiet (allowed : Event -> bool) (f : Eff unit) : Prop :=
  forall req res, exists res',
    f (req, res) = (Zod.Ok tt, (req, res')) /\ extends allowed res res'.

(** [f], run on a response whose [res.json] is Express's own, returns
    normally, leaves the request alone and only sends. *)
Definition sendsOnly (f : Eff unit) : Prop :=
  forall req res, json res = [] ->
    exists res', f (req, res) = (Zod.Ok tt, (req, res')) /\ extends isSendEvent res res'.

(** How often [errorHandler] was called. *)
Definition errorHandlerCalls (res : Response) : nat :=
  length (List.filter isErrorHandlerEvent (trace res)).

(** [req] as it would be with other headers. *)
Definition withHeaders (hs : JS.Json) (req : Request) : Request :=
  {| params := params req; query := query req; body := body req;
     headers := hs; cookies := cookies req; originalUrl := originalUrl req |}.

(** [routeDescription] as it would be with other header and cookie schemas. *)
Definition withHeaderSchemas (h c : option Zod.ZodType)
           (routeDescription : Core.RouteDescription) : Core.RouteDescription :=
  let r := Core.request routeDescription in
  {| Core.request := {| Core.header := h; Core.cookie := c; Core.path := Core.path r;
                        Core.query := Core.query r; Core.body := Core.body r |};
     Core.response := Core.response routeDescription |}.

End Trace.

(** ** The schema each request part is parsed with *)

Module Parts.
Import JS Zod Express.

(** The declared path schema, or [z.object({})]. *)
Definition pathSchema (routeDescription : Core.RouteDescription) : ZodType :=
  default object_empty (Core.path (Core.request routeDescription)).

(** The declared query schema, or [z.object({})]. *)
Definition querySchema (routeDescription : Core.RouteDescription) : ZodType :=
  default object_empty (Core.query (Core.request routeDescription)).

(** The declared body schema, or [z.object({}).optional()]. *)
Definition bodySchema (routeDescription : Core.RouteDescription) : ZodType :=
  default (optional object_empty) (Core.body (Core.request routeDescription)).

(** [req] with other [params], [query] and [body]. *)
Definition withParts (p q b : Json) (req : Request) : Request :=
  {| params := p; query := q; body := b;
     headers := headers req; cookies := cookies req; originalUrl := originalUrl req |}.

(** [routeDescription] with another body schema. *)
Definition withBodySchema (b : option ZodType)
           (routeDescription : Core.RouteDescription) : Core.RouteDescription :=
  let r := Core.request routeDescription in
  {| Core.request := {| Core.header := Core.header r; Core.cookie := Core.cookie r;
                        Core.path := Core.path r; Core.query := Core.query r;
                        Core.body := b |};
     Core.response := Core.response routeDescription |}.

(** [f] returns normally, leaves the request alone and does not call
    [errorHandler]. *)
Definition calm (f : Eff unit) : Prop :=
  forall req res, exists res',
    f (req, res) = (Zod.Ok tt, (req, res'))
    /\ Trace.errorHandlerCalls res' = Trace.errorHandlerCalls res.

(** No request validator is in the stack. *)
Definition noRequestValidator (stack : list ExZodOsRouter.Middleware) : Prop :=
  Forall (fun m => match m with
                   | ExZodOsRouter.RequestValidator _ _ => False
                   | _ => True
                   end) stack.

End Parts.

(** ** A sample API: [GET /users/:id] *)

Module Sample.
Import JS Zod Core Express ExZodOsRouter.

Definition field (name : string) (v : Json) : Json :=
  match v with
  | JObj fields => default JUndefined (ExZodOsClient.get fields name)
  | _ => JUndefined
  end.

Definition invalid {A} (issue : string) : Result A := Throw {| issues := [issue] |}.

(** [z.object({ id: z.number().int(), name: z.string() })] *)
Definition userSchema : ZodType :=
  {| parse input :=
       match input with
       | JObj _ =>
           match field "id" input, field "name" input with
           | JNum id, JStr name => Ok (JObj [("id", JNum id); ("name", JStr name)])
           | _, _ => invalid "invalid_type"
           end
       | _ => invalid "invalid_type"
       end |}.

(** [z.object({ message: z.string() })] *)
Definition messageSchema : ZodType :=
  {| parse input :=
       match input with
       | JObj _ =>
           match field "message" input with
           | JStr message => Ok (JObj [("message", JStr message)])
           | _ => invalid "invalid_type"
           end
       | _ => invalid "invalid_type"
       end |}.

(** [z.object({ id: z.string() })] *)
Definition idSchema : ZodType :=
  {| parse input :=
       match input with
       | JObj _ =>
           match field "id" input with
           | JStr id => Ok (JObj [("id", JStr id)])
           | _ => invalid "invalid_type"
           end
       | _ => invalid "invalid_type"
       end |}.

(** [z.any().transform(() => undefined)] *)
Definition discarding : ZodType := {| parse _ := Ok JUndefined |}.

Definition getUser : RouteDescription :=
  {| request := {| header := Some idSchema; cookie := None; path := Some idSchema;
                   Core.query := None; Core.body := None |};
     response := {[ "200" := Some userSchema; "404" := Some messageSchema;
                    "204" := Some discarding; "default" := Some userSchema ]} |}.

(** A route that declares no request schema at all. *)
Definition listUsers : RouteDescription :=
  {| request := {| header := None; cookie := None; path := None;
                   Core.query := None; Core.body := None |};
     response := {[ "200" := Some userSchema ]} |}.

(** [DELETE /users/:id], described without a path schema. *)
Definition removeUser : RouteDescription :=
  {| request := {| header := None; cookie := None; path := None;
                   Core.query := None; Core.body := None |};
     response := ∅ |}.

Definition api : Api :=
  {[ "/users/:id" := {[ "get" := getUser; "delete" := removeUser ]};
     "/users" := {[ "get" := listUsers ]} ]}.

(** An error handler that answers 400 with the first issue. *)
Definition badRequest
  : ZodError -> Request -> Response -> list ResCall * option ZodError :=
  fun err _ _ =>
    ([CallStatus 400;
      CallJson (JObj [("issue", JStr (default EmptyString (head (issues err))))])],
     None).

(** An error handler that sets 400 and throws the error on. *)
Definition rethrow
  : ZodError -> Request -> Response -> list ResCall * option ZodError :=
  fun err _ _ => ([CallStatus 400], Some err).

Definition config (attach : bool) : RouterConfig :=
  {| attachResponseValidator := attach;
     skipRequestBodyValidation := false;
     errorHandler := badRequest |}.

Definition requestWith (params_ query_ : Json) : Request :=
  {| params := params_; Express.query := query_; Express.body := JUndefined;
     headers := JObj [("accept", JStr "*/*")]; cookies := JObj [];
     originalUrl := "/users/7" |}.

Definition request (params_ : Json) : Request :=
  {| params := params_; Express.query := JObj []; Express.body := JUndefined;
     headers := JObj [("accept", JStr "*/*")]; cookies := JObj [];
     originalUrl := "/users/7" |}.

(** A response nothing has happened to yet. *)
Definition fresh : Response := {| statusCode := 200; json := []; trace := [] |}.

(** A handler that answers [code] with [sent]. *)
Definition answer (code : Z) (sent : Json) : Handler :=
  fun _ _ => [OnRes (CallStatus code); OnRes (CallJson sent)].

End Sample.

(** * Properties of the router *)

Import JS Zod Express ExZodOsRouter Trace.

(** One case split of the request validation: on a schema being declared,
    on a parse result, on the input of [object_empty], on a flag. *)
Ltac step_validation :=
  match goal with
  | |- context [match ?o with Some _ => _ | None => _ end] => destruct o
  | |- context [parse ?schema ?input] => destruct (parse schema input) as [?v|?e]
  | |- context [match ?j with JUndefined => _ | _ => _ end] => destruct j
  | |- context [if ?b then _ else _] => destruct b
  end; cbn.

Section ResponseValidation.

Variable routeDescription : Core.RouteDescription.
Variables (req : Request) (res : Response) (sent : Json).

(** The route's response validator is the override on [res.json]. *)
Hypothesis attached : json res = [Core.response routeDescription].

Lemma resJson_attached :
  resJson sent (req, res)
  = validatedJson (Core.response routeDescription) expressJson sent (req, res).
Proof. unfold resJson. cbn [snd]. rewrite attached. reflexivity. Qed.

Lemma resJson_schema_throws schema err :
  Core.response routeDescription !! numberToString (statusCode res) = Some (Some schema) ->
  parse schema sent = Throw err ->
  resJson sent (req, res)
  = (Ok tt, (req, {| statusCode := 500; json := json res;
                     trace := trace res ++ [EvParse "response" sent;
                                            EvSend 500 outOfSpecBody] |})).
Proof.
  intros Hlookup Hparse. rewrite resJson_attached.
  unfold validatedJson, try_catch, bind, getRes, zparse, record. cbn.
  rewrite Hlookup. cbn. rewrite Hparse. cbn.
  unfold expressJson, record. cbn. rewrite <- app_assoc. reflexivity.
Qed.

Lemma resJson_no_schema :
  mjoin (Core.response routeDescription !! numberToString (statusCode res)) = None ->
  resJson sent (req, res) = (Ok tt, (req, traced res [EvSend (statusCode res) sent])).
Proof.
  intros Hlookup. rewrite resJson_attached.
  unfold validatedJson, try_catch, bind, getRes. cbn.
  destruct (Core.response routeDescription !! numberToString (statusCode res))
    as [[schema|]|]; [discriminate| |]; reflexivity.
Qed.

(** C10: when the schema registered for the current status code parses the
    emitted body successfully but to [null] or [undefined], the body the
    handler gave is what is sent, not the parsed output. *)
Theorem response_nullish_output_sends_original schema parsed :
  Core.response routeDescription !! numberToString (statusCode res) = Some (Some schema) ->
  parse schema sent = Ok parsed ->
  isNullish parsed = true ->
  resJson sent (req, res)
  = (Ok tt, (req, traced res [EvParse "response" sent; EvSend (statusCode res) sent])).
Proof.
  intros Hlookup Hparse Hnull. rewrite resJson_attached.
  unfold validatedJson, try_catch, bind, getRes, zparse, record. cbn.
  rewrite Hlookup. cbn. rewrite Hparse. cbn.
  unfold nullish. rewrite Hnull.
  unfold expressJson, record, traced. cbn. rewrite <- app_assoc. reflexivity.
Qed.

End ResponseValidation.

(** C1: the response validator of a route, run on a response whose
    [res.json] is Express's own, puts its override on [res.json] and hands
    on to [next] with nothing else changed.  From then on, whenever a body
    is emitted while a schema is registered for the current status code and
    parsing the body through it throws, what is sent is status 500 with
    exactly [{ status: "Internal server error", message: "Server generated
    response is out of API spec" }], whatever the body was; the call
    returns normally and its only events are that parse and that send, so
    [errorHandler] is not called.  In particular a handler that answers
    [res.status(code).json(sent)] under such a code ends there. *)
Theorem response_out_of_spec_sends_500
        (routeDescription : Core.RouteDescription) (req : Request) (res : Response) :
  json res = [] ->
  let installed := {| statusCode := statusCode res;
                      json := [Core.response routeDescription];
                      trace := trace res |} in
  let fixedBody := JObj [("status", JStr "Internal server error");
                         ("message", JStr "Server generated response is out of API spec")] in
  (forall next, responseValidator routeDescription next (req, res) = next (req, installed))
  /\ (forall req1 res1 sent schema err,
        json res1 = json installed ->
        Core.response routeDescription !! numberToString (statusCode res1)
        = Some (Some schema) ->
        parse schema sent = Throw err ->
        resJson sent (req1, res1)
        = (Ok tt, (req1, {| statusCode := 500; json := json res1;
                            trace := trace res1 ++ [EvParse "response" sent;
                                                    EvSend 500 fixedBody] |})))
  /\ (forall code sent schema err,
        Core.response routeDescription !! numberToString code = Some (Some schema) ->
        parse schema sent = Throw err ->
        responseValidator routeDescription
          (bind (status code) (fun _ => resJson sent)) (req, res)
        = (Ok tt, (req, {| statusCode := 500; json := [Core.response routeDescription];
                           trace := trace res ++ [EvParse "response" sent;
                                                  EvSend 500 fixedBody] |}))).
Proof.
  intros Hjson installed fixedBody.
  assert (Hnext : forall next,
             responseValidator routeDescription next (req, res) = next (req, installed)).
  { intros next. unfold responseValidator, bind, getRes, setRes, installed. cbn.
    now rewrite Hjson. }
  split; [exact Hnext|]. split.
  - intros req1 res1 sent schema err Hjson1 Hlookup Hparse.
    exact (resJson_schema_throws routeDescription req1 res1 sent Hjson1 schema err
             Hlookup Hparse).
  - intros code sent schema err Hlookup Hparse. rewrite Hnext.
    change (bind (status code) (fun _ => resJson sent) (req, installed))
      with (resJson sent (req, {| statusCode := code;
                                  json := [Core.response routeDescription];
                                  trace := trace res |})).
    exact (resJson_schema_throws routeDescription req
             {| statusCode := code; json := [Core.response routeDescription];
                trace := trace res |} sent eq_refl schema err Hlookup Hparse).
Qed.

(** The property key of a status code is never ["default"]. *)
Lemma numberToString_not_default (code : Z) : numberToString code <> "default".
Proof.
  unfold numberToString.
  destruct (Z.to_int code) as [d|d]; destruct d; cbn; discriminate.
Qed.

Lemma validatedJson_ignores_default response schema originalJson sent st :
  validatedJson (<["default" := schema]> response) originalJson sent st
  = validatedJson response originalJson sent st.
Proof.
  unfold validatedJson, try_catch, bind, getRes. cbn.
  rewrite lookup_insert_ne by (apply not_eq_sym, numberToString_not_default).
  reflexivity.
Qed.

(** C7: on a route whose response validator is attached, when no schema is
    registered under the current status code, the body is sent as the
    handler gave it, under that status code and without any parse; and the
    entry under ["default"] is never the one looked up: no status code has
    that key, and putting any schema there changes nothing of what the
    validated [res.json] does. *)
Theorem response_without_schema_sends_original :
  (forall (routeDescription : Core.RouteDescription) req res sent,
      json res = [Core.response routeDescription] ->
      mjoin (Core.response routeDescription !! numberToString (statusCode res)) = None ->
      resJson sent (req, res) = (Ok tt, (req, traced res [EvSend (statusCode res) sent])))
  /\ (forall code : Z, numberToString code <> "default")
  /\ (forall response schema originalJson sent st,
        validatedJson (<["default" := schema]> response) originalJson sent st
        = validatedJson response originalJson sent st).
Proof.
  split; [|split].
  - intros rd req res sent Hjson Hnone. now apply (resJson_no_schema rd).
  - apply numberToString_not_default.
  - apply validatedJson_ignores_default.
Qed.

Lemma response_out_of_spec_sends_500_witness :
  responseValidator Sample.getUser
    (bind (status 404) (fun _ => resJson (JObj [("id", JNum 7)])))
    (Sample.request (JObj [("id", JStr "7")]), Sample.fresh)
  = (Ok tt, (Sample.request (JObj [("id", JStr "7")]),
             {| statusCode := 500; json := [Core.response Sample.getUser];
                trace := [] ++ [EvParse "response" (JObj [("id", JNum 7)]);
                                EvSend 500
                                  (JObj [("status", JStr "Internal server error");
                                         ("message",
                                          JStr "Server generated response is out of API spec")])]
             |})).
Proof.
  apply (proj2 (proj2 (response_out_of_spec_sends_500
                         Sample.getUser (Sample.request (JObj [("id", JStr "7")]))
                         Sample.fresh eq_refl))
           404%Z (JObj [("id", JNum 7)]) Sample.messageSchema
           {| issues := ["invalid_type"] |});
    vm_compute; reflexivity.
Defined.

Lemma response_nullish_output_sends_original_witness :
  resJson (JObj [("id", JNum 7)])
          (Sample.request (JObj [("id", JStr "7")]),
           {| statusCode := 204; json := [Core.response Sample.getUser]; trace := [] |})
  = (Ok tt, (Sample.request (JObj [("id", JStr "7")]),
             {| statusCode := 204; json := [Core.response Sample.getUser];
                trace := [EvParse "response" (JObj [("id", JNum 7)]);
                          EvSend 204 (JObj [("id", JNum 7)])] |})).
Proof.
  apply (response_nullish_output_sends_original Sample.getUser _
           {| statusCode := 204; json := [Core.response Sample.getUser]; trace := [] |}
           _ eq_refl Sample.discarding JUndefined);
    vm_compute; reflexivity.
Defined.

Lemma response_without_schema_sends_original_witness :
  resJson (JObj [("id", JNum 7)])
          (Sample.request (JObj [("id", JStr "7")]),
           {| statusCode := 201; json := [Core.response Sample.getUser]; trace := [] |})
  = (Ok tt, (Sample.request (JObj [("id", JStr "7")]),
             {| statusCode := 201; json := [Core.response Sample.getUser];
                trace := [EvSend 201 (JObj [("id", JNum 7)])] |})).
Proof.
  apply (proj1 response_without_schema_sends_original Sample.getUser _
           {| statusCode := 201; json := [Core.response Sample.getUser]; trace := [] |}
           _ eq_refl);
    vm_compute; reflexivity.
Defined.

(** ** What the calls on [res] can do *)

Lemma extends_refl allowed res : extends allowed res res.
Proof. split; [reflexivity|]. exists []. now rewrite app_nil_r. Qed.

Lemma extends_trans allowed res1 res2 res3 :
  extends allowed res1 res2 -> extends allowed res2 res3 -> extends allowed res1 res3.
Proof.
  intros [Hj1 (evs1 & Ht1 & Ha1)] [Hj2 (evs2 & Ht2 & Ha2)]. split; [congruence|].
  exists (evs1 ++ evs2). rewrite Ht2, Ht1, <- app_assoc. split; [reflexivity|].
  rewrite forallb_app, Ha1, Ha2. reflexivity.
Qed.

Lemma extends_record allowed res ev :
  allowed ev = true ->
  extends allowed res {| statusCode := statusCode res; json := json res;
                         trace := trace res ++ [ev] |}.
Proof.
  intros Hev. split; [reflexivity|]. exists [ev]. split; [reflexivity|].
  cbn. now rewrite Hev.
Qed.

Lemma extends_status allowed res code :
  extends allowed res {| statusCode := code; json := json res; trace := trace res |}.
Proof. split; [reflexivity|]. exists []. cbn. now rewrite app_nil_r. Qed.

Lemma quiet_ret allowed : quiet allowed (ret tt).
Proof. intros req res. exists res. split; [reflexivity|apply extends_refl]. Qed.

Lemma quiet_bind allowed (f g : Eff unit) :
  quiet allowed f -> quiet allowed g -> quiet allowed (bind f (fun _ => g)).
Proof.
  intros Hf Hg req res. destruct (Hf req res) as (res1 & Ef & X1).
  destruct (Hg req res1) as (res2 & Eg & X2).
  exists res2. unfold bind. rewrite Ef. split; [exact Eg|].
  eapply extends_trans; eassumption.
Qed.

Lemma quiet_status allowed code : quiet allowed (status code).
Proof. intros req res. eexists. split; [reflexivity|apply extends_status]. Qed.

Lemma quiet_expressJson allowed sent :
  (forall code, allowed (EvSend code sent) = true) -> quiet allowed (expressJson sent).
Proof.
  intros Hsend req res. eexists. split; [reflexivity|]. now apply extends_record.
Qed.

Lemma quiet_validatedJson allowed response originalJson sent :
  (forall part input, allowed (EvParse part input) = true) ->
  (forall body, quiet allowed (originalJson body)) ->
  quiet allowed (validatedJson response originalJson sent).
Proof.
  intros Hparse Horig req res.
  unfold validatedJson, try_catch, bind, getRes, zparse, record. cbn.
  destruct (response !! numberToString (statusCode res)) as [[schema|]|]; cbn.
  - destruct (parse schema sent) as [parsed|err]; cbn.
    + destruct (Horig (nullish parsed sent) req
                  {| statusCode := statusCode res; json := json res;
                     trace := trace res ++ [EvParse "response" sent] |})
        as (res' & E & X).
      rewrite E. exists res'. split; [reflexivity|].
      eapply extends_trans; [apply extends_record, Hparse|exact X].
    + destruct (Horig outOfSpecBody req
                  {| statusCode := 500; json := json res;
                     trace := trace res ++ [EvParse "response" sent] |})
        as (res' & E & X).
      exists res'. split; [exact E|].
      eapply extends_trans; [apply extends_record, Hparse|].
      eapply extends_trans; [|exact X].
      apply (extends_status allowed
               {| statusCode := statusCode res; json := json res;
                  trace := trace res ++ [EvParse "response" sent] |} 500).
  - destruct (Horig sent req res) as (res' & E & X).
    rewrite E. exists res'. split; [reflexivity|exact X].
  - destruct (Horig sent req res) as (res' & E & X).
    rewrite E. exists res'. split; [reflexivity|exact X].
Qed.

Lemma quiet_jsonOf overrides sent : quiet notErrorHandlerEvent (jsonOf overrides sent).
Proof.
  revert sent. induction overrides as [|response inner IH]; intros sent; cbn.
  - now apply quiet_expressJson.
  - now apply quiet_validatedJson.
Qed.

Lemma quiet_resJson sent : quiet notErrorHandlerEvent (resJson sent).
Proof. intros req res. apply (quiet_jsonOf (json res) sent req res). Qed.

Lemma quiet_resCalls cs : quiet notErrorHandlerEvent (resCalls cs).
Proof.
  induction cs as [|c cs IH]; cbn.
  - apply quiet_ret.
  - apply quiet_bind; [|exact IH].
    destruct c; [apply quiet_status|apply quiet_resJson].
Qed.

Lemma filter_errorHandler_none allowed evs :
  (forall ev, allowed ev = true -> isErrorHandlerEvent ev = false) ->
  forallb allowed evs = true ->
  List.filter isErrorHandlerEvent evs = [].
Proof.
  intros Hallowed. induction evs as [|ev evs IH]; [reflexivity|].
  cbn. intros Ha. apply andb_prop in Ha as [Hev Hrest].
  rewrite (Hallowed ev Hev). now apply IH.
Qed.

Lemma errorHandlerCalls_extends allowed res res' :
  (forall ev, allowed ev = true -> isErrorHandlerEvent ev = false) ->
  extends allowed res res' -> errorHandlerCalls res' = errorHandlerCalls res.
Proof.
  intros Hallowed [_ (evs & Ht & Ha)]. unfold errorHandlerCalls. rewrite Ht.
  rewrite List.filter_app, length_app.
  rewrite (filter_errorHandler_none allowed evs Hallowed Ha). cbn. lia.
Qed.

Lemma notErrorHandlerEvent_false ev :
  notErrorHandlerEvent ev = true -> isErrorHandlerEvent ev = false.
Proof. unfold notErrorHandlerEvent. now destruct (isErrorHandlerEvent ev). Qed.

Lemma isParseEvent_false ev :
  isParseEvent ev = true -> isErrorHandlerEvent ev = false.
Proof. now destruct ev. Qed.

(** ** The request validator *)

Lemma requestValidator_throws routeDescription config next st err st' :
  validateRequestParts routeDescription config st = (Throw err, st') ->
  requestValidator routeDescription config next st = callErrorHandler config err st'.
Proof.
  intros Hv. unfold requestValidator, try_catch, bind. now rewrite Hv.
Qed.

Lemma requestValidator_passes routeDescription config next st st' :
  validateRequestParts routeDescription config st = (Ok tt, st') ->
  requestValidator routeDescription config next st
  = try_catch next (callErrorHandler config) st'.
Proof.
  intros Hv. unfold requestValidator, try_catch, bind. now rewrite Hv.
Qed.

(** The validation touches [params], [query] and [body] of the request and
    the trace of the response, where it leaves the parses it made. *)
Lemma validateRequestParts_frame routeDescription config req res :
  exists r req' res',
    validateRequestParts routeDescription config (req, res) = (r, (req', res'))
    /\ headers req' = headers req /\ cookies req' = cookies req
    /\ originalUrl req' = originalUrl req
    /\ statusCode res' = statusCode res
    /\ extends isParseEvent res res'.
Proof.
  unfold validateRequestParts, bind, getReq, zparse, record, setParams, setQuery,
    setBody, ret.
  destruct routeDescription as [[h c p q b] resp], config as [attach skip handler].
  cbn.
  repeat step_validation;
    (do 3 eexists; split; [reflexivity|]; cbn;
     repeat (split; [reflexivity|]);
     eexists; rewrite <- ?app_assoc; split; [reflexivity|reflexivity]).
Qed.

Lemma callErrorHandler_completes config err req res :
  exists res'',
    callErrorHandler config err (req, res)
    = (match snd (errorHandler config err req res) with
       | None => Ok tt
       | Some thrown => Throw thrown
       end, (req, res''))
    /\ resCalls (fst (errorHandler config err req res))
                (req, traced res [EvErrorHandler err req])
       = (Ok tt, (req, res''))
    /\ extends notErrorHandlerEvent (traced res [EvErrorHandler err req]) res''.
Proof.
  destruct (quiet_resCalls (fst (errorHandler config err req res)) req
              (traced res [EvErrorHandler err req])) as (res'' & E & X).
  exists res''. split; [|split; [exact E|exact X]].
  unfold callErrorHandler, bind, getReq, getRes, record. cbn [fst snd].
  fold (traced res [EvErrorHandler err req]). rewrite E.
  now destruct (snd (errorHandler config err req res)).
Qed.

(** C5 (the claim as it is stated fails): [errorHandler] is called in the
    [catch] without a guard, so an error handler that throws (here one that
    sets 400 and throws the validation error on) makes the request
    validator throw: an exception leaves the middleware. *)
Lemma throwing_errorHandler_leaves_the_request_validator :
  requestValidator Sample.getUser
    {| attachResponseValidator := true; skipRequestBodyValidation := false;
       errorHandler := Sample.rethrow |}
    (ret tt) (Sample.request (JObj [("id", JNum 7)]), Sample.fresh)
  = (Throw {| issues := ["invalid_type"] |},
     (Sample.request (JObj [("id", JNum 7)]),
      {| statusCode := 400; json := [];
         trace := [EvParse "path" (JObj [("id", JNum 7)]);
                   EvErrorHandler {| issues := ["invalid_type"] |}
                                  (Sample.request (JObj [("id", JNum 7)]))] |})).
Proof. vm_compute. reflexivity. Qed.

(** C5 (amended): when the validation of path, query or body throws, the
    request validator has by then set no status code and sent nothing (the
    response differs from the one it got by the parses in its trace only);
    it calls [errorHandler] on the error, the request and that response,
    exactly once, and what the middleware does is what that call does,
    whatever [next] is: [next] is not run, the validation error itself does
    not leave the middleware, and the middleware returns normally when
    [errorHandler] returns and throws only what [errorHandler] throws. *)
Theorem request_validation_failure_goes_to_errorHandler
        routeDescription config req res err req' res' :
  validateRequestParts routeDescription config (req, res) = (Throw err, (req', res')) ->
  statusCode res' = statusCode res
  /\ extends isParseEvent res res'
  /\ forall next,
      requestValidator routeDescription config next (req, res)
      = callErrorHandler config err (req', res')
      /\ exists res'',
          requestValidator routeDescription config next (req, res)
          = (match snd (errorHandler config err req' res') with
             | None => Ok tt
             | Some thrown => Throw thrown
             end, (req', res''))
          /\ resCalls (fst (errorHandler config err req' res'))
                      (req', traced res' [EvErrorHandler err req'])
             = (Ok tt, (req', res''))
          /\ errorHandlerCalls res'' = S (errorHandlerCalls res).
Proof.
  intros Hv.
  destruct (validateRequestParts_frame routeDescription config req res)
    as (r & req0 & res0 & E & _ & _ & _ & Hstatus & Hext).
  rewrite Hv in E. injection E as <- <- <-.
  split; [exact Hstatus|]. split; [exact Hext|].
  intros next. rewrite (requestValidator_throws _ _ next _ _ _ Hv).
  split; [reflexivity|].
  destruct (callErrorHandler_completes config err req' res') as (res'' & E' & Ecalls & X).
  exists res''. split; [exact E'|]. split; [exact Ecalls|].
  rewrite (errorHandlerCalls_extends _ _ _ notErrorHandlerEvent_false X).
  rewrite <- (errorHandlerCalls_extends _ _ _ isParseEvent_false Hext).
  unfold errorHandlerCalls, traced. cbn.
  rewrite List.filter_app, length_app. cbn. lia.
Qed.

Lemma request_validation_failure_goes_to_errorHandler_witness :
  let req := Sample.request (JObj [("id", JNum 7)]) in
  let res' := traced Sample.fresh [EvParse "path" (JObj [("id", JNum 7)])] in
  let err := {| issues := ["invalid_type"] |} in
  statusCode res' = statusCode Sample.fresh
  /\ extends isParseEvent Sample.fresh res'
  /\ requestValidator Sample.getUser (Sample.config true) (ret tt) (req, Sample.fresh)
     = callErrorHandler (Sample.config true) err (req, res')
  /\ exists res'',
      requestValidator Sample.getUser (Sample.config true) (ret tt) (req, Sample.fresh)
      = (Ok tt, (req, res''))
      /\ errorHandlerCalls res'' = S (errorHandlerCalls Sample.fresh).
Proof.
  destruct (request_validation_failure_goes_to_errorHandler
              Sample.getUser (Sample.config true)
              (Sample.request (JObj [("id", JNum 7)])) Sample.fresh
              {| issues := ["invalid_type"] |}
              (Sample.request (JObj [("id", JNum 7)]))
              (traced Sample.fresh [EvParse "path" (JObj [("id", JNum 7)])]))
    as (Hstatus & Hext & Hnext).
  - vm_compute. reflexivity.
  - destruct (Hnext (ret tt)) as (Hcall & res'' & Hdone & _ & Hcount).
    cbv zeta. split; [exact Hstatus|]. split; [exact Hext|]. split; [exact Hcall|].
    exists res''. split; [exact Hdone|exact Hcount].
Defined.

(** C9: the request validator does not look at the request's headers and
    does not use the header (or cookie) schema of the route: its validation
    leaves [headers], [cookies] and [originalUrl] of the request as they
    were, it does the same, parse for parse, on a request with any other
    headers under any other header and cookie schemas, and the middleware as
    a whole is the same function for any header and cookie schemas. *)
Theorem request_validator_ignores_headers routeDescription config req res :
  match validateRequestParts routeDescription config (req, res) with
  | (r, (req', res')) =>
      headers req' = headers req
      /\ cookies req' = cookies req
      /\ originalUrl req' = originalUrl req
      /\ forall h c hs,
          validateRequestParts (withHeaderSchemas h c routeDescription) config
                               (withHeaders hs req, res)
          = (r, (withHeaders hs req', res'))
  end
  /\ forall h c,
      requestValidator (withHeaderSchemas h c routeDescription) config
      = requestValidator routeDescription config.
Proof.
  split; [|reflexivity].
  unfold validateRequestParts, bind, getReq, zparse, record, setParams, setQuery,
    setBody, ret.
  destruct routeDescription as [[h0 c0 p q b] resp], config as [attach skip handler].
  cbn.
  repeat step_validation; repeat (split; [reflexivity|]); intros; reflexivity.
Qed.

(** C2 (the code at an input the claim says is rejected): [DELETE
    /users/:id] is described without a path schema and without a query
    schema; a request carrying the path parameter [id] and a query key
    [page] is not rejected: [z.object({})] strips both bags to the empty
    object, the handler runs and [errorHandler] is not called. *)
Example undeclared_parameters_are_not_rejected :
  dispatch
    (flatten (registrarArgs Sample.api (Sample.config false) Core.DELETE "/users/:id"
                            [Sample.answer 200 (JStr "deleted")]))
    (Sample.requestWith (JObj [("id", JStr "abc")]) (JObj [("page", JStr "2")]),
     Sample.fresh)
  = (Ok tt,
     (Sample.requestWith (JObj []) (JObj []),
      {| statusCode := 200; json := [];
         trace := [EvParse "path" (JObj [("id", JStr "abc")]);
                   EvParse "query" (JObj [("page", JStr "2")]);
                   EvParse "body" JUndefined;
                   EvSend 200 (JStr "deleted")] |})).
Proof. vm_compute. reflexivity. Qed.

(** ** Registration *)

Lemma sendsOnly_ret : sendsOnly (ret tt).
Proof. intros req res _. exists res. split; [reflexivity|apply extends_refl]. Qed.

Lemma sendsOnly_bind (f g : Eff unit) :
  sendsOnly f -> sendsOnly g -> sendsOnly (bind f (fun _ => g)).
Proof.
  intros Hf Hg req res Hjson. destruct (Hf req res Hjson) as (res1 & Ef & X1).
  assert (Hjson1 : json res1 = []) by (destruct X1 as [-> _]; exact Hjson).
  destruct (Hg req res1 Hjson1) as (res2 & Eg & X2).
  exists res2. unfold bind. rewrite Ef. split; [exact Eg|].
  eapply extends_trans; eassumption.
Qed.

Lemma sendsOnly_resCall c : sendsOnly (resCall c).
Proof.
  intros req res Hjson. destruct c as [code|sent]; cbn.
  - eexists. split; [reflexivity|apply extends_status].
  - unfold resJson. cbn. rewrite Hjson. cbn.
    eexists. split; [reflexivity|]. now apply extends_record.
Qed.

Lemma sendsOnly_calls next cs : sendsOnly next -> sendsOnly (calls next cs).
Proof.
  intros Hnext. induction cs as [|[c|] cs IH]; cbn.
  - apply sendsOnly_ret.
  - apply sendsOnly_bind; [apply sendsOnly_resCall|exact IH].
  - apply sendsOnly_bind; [exact Hnext|exact IH].
Qed.

Lemma sendsOnly_user_handlers handlers : sendsOnly (dispatch (map UserHandler handlers)).
Proof.
  induction handlers as [|h handlers IH]; cbn.
  - apply sendsOnly_ret.
  - intros req res Hjson. unfold bind, getReq, getRes. cbn.
    now apply (sendsOnly_calls _ (h req res) IH).
Qed.

Lemma flatten_many ms : flatten [Many ms] = ms.
Proof. unfold flatten. cbn. apply app_nil_r. Qed.

(** C4: for a (path, method) pair the API definition does not describe,
    the verb method hands the original registrar the user's handlers and
    nothing else, so the registered stack is those handlers in their order,
    without validator; a request handled by that stack (with [res.json]
    still Express's own) sees no schema parse and no [errorHandler] call:
    whatever happens is a send by a handler. *)
Theorem undescribed_route_is_registered_unmodified
        apiDef config method path handlers router :
  lookupRoute apiDef path method = None ->
  registrarArgs apiDef config method path handlers = [Many (map UserHandler handlers)]
  /\ register apiDef config method path handlers router
     = router ++ [{| routeMethod := method; routePath := path;
                     stack := map UserHandler handlers |}]
  /\ forall req res, json res = [] ->
       exists res',
         dispatch (map UserHandler handlers) (req, res) = (Ok tt, (req, res'))
         /\ extends isSendEvent res res'.
Proof.
  intros Hnone. unfold register, originalHandlerRegistrar, registrarArgs.
  rewrite Hnone, flatten_many. split; [reflexivity|]. split; [reflexivity|].
  apply sendsOnly_user_handlers.
Qed.

Lemma undescribed_route_is_registered_unmodified_witness :
  let handlers := [Sample.answer 200 (JStr "ok")] in
  registrarArgs Sample.api (Sample.config true) Core.GET "/health" handlers
  = [Many (map UserHandler handlers)]
  /\ register Sample.api (Sample.config true) Core.GET "/health" handlers []
     = [] ++ [{| routeMethod := Core.GET; routePath := "/health";
                 stack := map UserHandler handlers |}]
  /\ forall req res, json res = [] ->
       exists res',
         dispatch (map UserHandler handlers) (req, res) = (Ok tt, (req, res'))
         /\ extends isSendEvent res res'.
Proof.
  apply (undescribed_route_is_registered_unmodified
           Sample.api (Sample.config true) Core.GET "/health"
           [Sample.answer 200 (JStr "ok")] []).
  vm_compute. reflexivity.
Defined.

Lemma not_in_user_handlers routeDescription handlers :
  ~ In (ResponseValidator routeDescription) (map UserHandler handlers).
Proof.
  induction handlers as [|h handlers IH]; cbn; [tauto|].
  intros [H|H]; [discriminate|tauto].
Qed.

(** C6: for a (path, method) pair the API definition describes, the verb
    method registers the request validator, then the response validator
    when [attachResponseValidator] is set, then the user's handlers in their
    order; and a response validator is in the registered stack exactly when
    [attachResponseValidator] is set (it is then the route's own). *)
Theorem described_route_is_registered_with_validators
        apiDef config method path handlers router routeDescription :
  lookupRoute apiDef path method = Some routeDescription ->
  register apiDef config method path handlers router
  = router ++ [{| routeMethod := method; routePath := path;
                  stack := RequestValidator routeDescription config
                           :: (if attachResponseValidator config
                               then [ResponseValidator routeDescription] else [])
                           ++ map UserHandler handlers |}]
  /\ forall rd,
      In (ResponseValidator rd)
         (flatten (registrarArgs apiDef config method path handlers))
      <-> attachResponseValidator config = true /\ rd = routeDescription.
Proof.
  intros Hsome. unfold register, originalHandlerRegistrar, registrarArgs.
  rewrite Hsome.
  destruct (attachResponseValidator config); unfold flatten; cbn;
    rewrite app_nil_r; (split; [reflexivity|]); intros rd; split.
  - intros [H|[H|H]]; [discriminate| |now apply not_in_user_handlers in H].
    injection H as <-. now split.
  - intros [_ ->]. right. now left.
  - intros [H|H]; [discriminate|now apply not_in_user_handlers in H].
  - intros [H _]. discriminate.
Qed.

Lemma described_route_is_registered_with_validators_witness :
  let handlers := [Sample.answer 200 (JStr "ok")] in
  register Sample.api (Sample.config true) Core.GET "/users/:id" handlers []
  = [] ++ [{| routeMethod := Core.GET; routePath := "/users/:id";
              stack := RequestValidator Sample.getUser (Sample.config true)
                       :: [ResponseValidator Sample.getUser]
                       ++ map UserHandler handlers |}]
  /\ forall rd,
      In (ResponseValidator rd)
         (flatten (registrarArgs Sample.api (Sample.config true) Core.GET
                                 "/users/:id" handlers))
      <-> true = true /\ rd = Sample.getUser.
Proof.
  apply (described_route_is_registered_with_validators
           Sample.api (Sample.config true) Core.GET "/users/:id"
           [Sample.answer 200 (JStr "ok")] [] Sample.getUser).
  vm_compute. reflexivity.
Defined.

(** * Further properties of the router *)

Import Parts.

(** ** The request validator, part by part *)

(** The validation parses path, query and body in that order, each with its
    schema, stops at the first parse that throws, and has by then replaced
    the parts that parsed. *)
Lemma validateRequestParts_steps routeDescription config req res :
  validateRequestParts routeDescription config (req, res)
  = let P := EvParse "path" (params req) in
    let Q := EvParse "query" (Express.query req) in
    let B := EvParse "body" (Express.body req) in
    match parse (pathSchema routeDescription) (params req) with
    | Throw e => (Throw e, (req, traced res [P]))
    | Ok p =>
        match parse (querySchema routeDescription) (Express.query req) with
        | Throw e =>
            (Throw e, (withParts p (Express.query req) (Express.body req) req,
                       traced res [P; Q]))
        | Ok q =>
            if skipRequestBodyValidation config
            then (Ok tt, (withParts p q (Express.body req) req, traced res [P; Q]))
            else
              match parse (bodySchema routeDescription) (Express.body req) with
              | Throw e =>
                  (Throw e, (withParts p q (Express.body req) req, traced res [P; Q; B]))
              | Ok b => (Ok tt, (withParts p q b req, traced res [P; Q; B]))
              end
        end
    end.
Proof.
  unfold validateRequestParts, pathSchema, querySchema, bodySchema, bind, getReq,
    zparse, record, setParams, setQuery, setBody, ret, traced, withParts.
  destruct routeDescription as [[h c p q b] resp], config as [attach skip handler],
    req as [ps qs bs hs cs u].
  cbn.
  destruct p as [p|]; cbn;
    (destruct (parse _ ps) as [pv|pe] || destruct ps); cbn; try reflexivity;
    (destruct q as [q|]; cbn;
     (destruct (parse _ qs) as [qv|qe] || destruct qs); cbn;
     rewrite <- ?app_assoc; try reflexivity;
     (destruct skip; cbn; try reflexivity;
      destruct b as [b|]; cbn;
      (destruct (parse _ bs) as [bv|be] || destruct bs); cbn;
      rewrite <- ?app_assoc; reflexivity)).
Qed.

(** X1: when path, query and body all parse, the request validator hands
    [next] the request with the three parts replaced by the parsed
    outputs, after exactly those three parses, and runs it once inside its
    [try]; when [next] returns, the middleware returns what [next] left. *)
Theorem valid_request_is_parsed_and_handed_on routeDescription config req res p q b :
  skipRequestBodyValidation config = false ->
  parse (pathSchema routeDescription) (params req) = Ok p ->
  parse (querySchema routeDescription) (Express.query req) = Ok q ->
  parse (bodySchema routeDescription) (Express.body req) = Ok b ->
  let st' := (withParts p q b req,
              traced res [EvParse "path" (params req);
                          EvParse "query" (Express.query req);
                          EvParse "body" (Express.body req)]) in
  forall next,
    requestValidator routeDescription config next (req, res)
    = try_catch next (callErrorHandler config) st'
    /\ forall st'', next st' = (Ok tt, st'') ->
                    requestValidator routeDescription config next (req, res) = (Ok tt, st'').
Proof.
  intros Hskip Hp Hq Hb st' next.
  assert (Hv : validateRequestParts routeDescription config (req, res) = (Ok tt, st')).
  { rewrite validateRequestParts_steps. cbn zeta. now rewrite Hp, Hq, Hskip, Hb. }
  rewrite (requestValidator_passes _ _ next _ _ Hv). split; [reflexivity|].
  intros st'' Hnext. unfold try_catch. now rewrite Hnext.
Qed.

(** X2: with [skipRequestBodyValidation] set, the body goes on to [next] as
    it was received, whatever body schema the route declares, and no body
    parse is made. *)
Theorem skipped_body_is_handed_on_unparsed routeDescription config req res p q :
  skipRequestBodyValidation config = true ->
  parse (pathSchema routeDescription) (params req) = Ok p ->
  parse (querySchema routeDescription) (Express.query req) = Ok q ->
  forall bodySchema_ next,
    requestValidator (withBodySchema bodySchema_ routeDescription) config next (req, res)
    = try_catch next (callErrorHandler config)
        (withParts p q (Express.body req) req,
         traced res [EvParse "path" (params req); EvParse "query" (Express.query req)]).
Proof.
  intros Hskip Hp Hq bodySchema_ next.
  apply requestValidator_passes.
  rewrite validateRequestParts_steps. cbn zeta.
  change (pathSchema (withBodySchema bodySchema_ routeDescription))
    with (pathSchema routeDescription).
  change (querySchema (withBodySchema bodySchema_ routeDescription))
    with (querySchema routeDescription).
  now rewrite Hp, Hq, Hskip.
Qed.

(** X3: when the path parse throws, neither query nor body is parsed and
    the request reaches [errorHandler] exactly as it came in. *)
Theorem path_failure_stops_the_validation routeDescription config req res err :
  parse (pathSchema routeDescription) (params req) = Throw err ->
  forall next,
    requestValidator routeDescription config next (req, res)
    = callErrorHandler config err (req, traced res [EvParse "path" (params req)]).
Proof.
  intros Hp next. apply requestValidator_throws.
  rewrite validateRequestParts_steps. cbn zeta. now rewrite Hp.
Qed.

(** X4: when the path parses and the query parse throws, [errorHandler]
    gets the request with [params] already replaced by the parsed path
    parameters, the query and body still raw, and the body never parsed. *)
Theorem query_failure_keeps_the_parsed_params routeDescription config req res p err :
  parse (pathSchema routeDescription) (params req) = Ok p ->
  parse (querySchema routeDescription) (Express.query req) = Throw err ->
  forall next,
    requestValidator routeDescription config next (req, res)
    = callErrorHandler config err
        (withParts p (Express.query req) (Express.body req) req,
         traced res [EvParse "path" (params req); EvParse "query" (Express.query req)]).
Proof.
  intros Hp Hq next. apply requestValidator_throws.
  rewrite validateRequestParts_steps. cbn zeta. now rewrite Hp, Hq.
Qed.

(** X5: on a route that declares no body schema (body validation not
    skipped), an absent body stays [undefined], an object body of any
    content becomes the empty object, and every other body ([null], a
    string, a number, a boolean, an array) makes the validation throw an
    [invalid_type] error. *)
Theorem undeclared_body_policy routeDescription config req res p q :
  skipRequestBodyValidation config = false ->
  Core.body (Core.request routeDescription) = None ->
  parse (pathSchema routeDescription) (params req) = Ok p ->
  parse (querySchema routeDescription) (Express.query req) = Ok q ->
  validateRequestParts routeDescription config (req, res)
  = let res' := traced res [EvParse "path" (params req);
                            EvParse "query" (Express.query req);
                            EvParse "body" (Express.body req)] in
    match Express.body req with
    | JUndefined => (Ok tt, (withParts p q JUndefined req, res'))
    | JObj _ => (Ok tt, (withParts p q (JObj []) req, res'))
    | other => (Throw {| issues := ["invalid_type"] |}, (withParts p q other req, res'))
    end.
Proof.
  intros Hskip Hbody Hp Hq.
  rewrite validateRequestParts_steps. cbn zeta. rewrite Hp, Hq, Hskip.
  unfold bodySchema. rewrite Hbody. cbn.
  destruct (Express.body req); reflexivity.
Qed.

(** X6: [next] is called inside the [try]: when the validation passes and
    [next] throws, the request validator calls [errorHandler] on what
    [next] threw, in the state [next] left. *)
Theorem error_thrown_by_next_goes_to_errorHandler
        routeDescription config next st st' err st'' :
  validateRequestParts routeDescription config st = (Ok tt, st') ->
  next st' = (Throw err, st'') ->
  requestValidator routeDescription config next st = callErrorHandler config err st''.
Proof.
  intros Hv Hnext. rewrite (requestValidator_passes _ _ next _ _ Hv).
  unfold try_catch. now rewrite Hnext.
Qed.

(** ** The response validator, further *)

(** X7: when the schema registered for the current status code parses the
    emitted body to an output that is neither [null] nor [undefined], that
    output is what is sent, under the same status code. *)
Theorem response_parsed_output_is_sent
        (routeDescription : Core.RouteDescription) req res sent schema parsed :
  json res = [Core.response routeDescription] ->
  Core.response routeDescription !! numberToString (statusCode res) = Some (Some schema) ->
  parse schema sent = Ok parsed ->
  isNullish parsed = false ->
  resJson sent (req, res)
  = (Ok tt, (req, traced res [EvParse "response" sent; EvSend (statusCode res) parsed])).
Proof.
  intros Hjson Hlookup Hparse Hnull.
  rewrite (resJson_attached routeDescription req res sent Hjson).
  unfold validatedJson, try_catch, bind, getRes, zparse, record. cbn.
  rewrite Hlookup. cbn. rewrite Hparse. cbn.
  unfold nullish. rewrite Hnull.
  unfold expressJson, record, traced. cbn. rewrite <- app_assoc. reflexivity.
Qed.

(** ** A described route, from registration to the answer *)

Lemma dispatch_described apiDef config method path handlers routeDescription :
  lookupRoute apiDef path method = Some routeDescription ->
  dispatch (flatten (registrarArgs apiDef config method path handlers))
  = requestValidator routeDescription config
      (dispatch ((if attachResponseValidator config
                  then [ResponseValidator routeDescription] else [])
                 ++ map UserHandler handlers)).
Proof.
  intros Hsome. unfold registrarArgs. rewrite Hsome.
  destruct (attachResponseValidator config); unfold flatten; cbn;
    rewrite app_nil_r; reflexivity.
Qed.

(** X9: on a described route, when the request validation throws, what the
    registered stack does is [errorHandler]'s call and nothing else,
    whatever handlers were registered and whether or not the response
    validator is attached: no handler runs, the stack returns normally when
    [errorHandler] returns, and [res.json] is still what it was, so what
    [errorHandler] sends is not checked by this route's response
    validator. *)
Theorem invalid_request_never_reaches_the_handlers
        apiDef config method path handlers routeDescription req res err req' res' :
  lookupRoute apiDef path method = Some routeDescription ->
  validateRequestParts routeDescription config (req, res) = (Throw err, (req', res')) ->
  dispatch (flatten (registrarArgs apiDef config method path handlers)) (req, res)
  = callErrorHandler config err (req', res')
  /\ exists res'',
      dispatch (flatten (registrarArgs apiDef config method path handlers)) (req, res)
      = (match snd (errorHandler config err req' res') with
         | None => Ok tt
         | Some thrown => Throw thrown
         end, (req', res''))
      /\ json res'' = json res.
Proof.
  intros Hsome Hv. rewrite (dispatch_described _ _ _ _ _ _ Hsome).
  rewrite (requestValidator_throws _ _ _ _ _ _ Hv). split; [reflexivity|].
  destruct (validateRequestParts_frame routeDescription config req res)
    as (r & req0 & res0 & E & _ & _ & _ & _ & [Hjson _]).
  rewrite Hv in E. injection E as <- <- <-.
  destruct (callErrorHandler_completes config err req' res')
    as (res'' & E' & _ & [Hjson' _]).
  exists res''. split; [exact E'|]. rewrite Hjson'. exact Hjson.
Qed.

Lemma calm_ret : calm (ret tt).
Proof. intros req res. exists res. now split. Qed.

Lemma calm_bind (f g : Eff unit) : calm f -> calm g -> calm (bind f (fun _ => g)).
Proof.
  intros Hf Hg req res. destruct (Hf req res) as (res1 & Ef & C1).
  destruct (Hg req res1) as (res2 & Eg & C2).
  exists res2. unfold bind. rewrite Ef. split; [exact Eg|congruence].
Qed.

Lemma calm_quiet (f : Eff unit) : quiet notErrorHandlerEvent f -> calm f.
Proof.
  intros Hf req res. destruct (Hf req res) as (res' & E & X).
  exists res'. split; [exact E|].
  exact (errorHandlerCalls_extends _ _ _ notErrorHandlerEvent_false X).
Qed.

Lemma calm_resCall c : calm (resCall c).
Proof.
  apply calm_quiet. destruct c; [apply quiet_status|apply quiet_resJson].
Qed.

Lemma calm_calls next cs : calm next -> calm (calls next cs).
Proof.
  intros Hnext. induction cs as [|[c|] cs IH]; cbn.
  - apply calm_ret.
  - apply calm_bind; [apply calm_resCall|exact IH].
  - apply calm_bind; [exact Hnext|exact IH].
Qed.

Lemma calm_responseValidator routeDescription next :
  calm next -> calm (responseValidator routeDescription next).
Proof.
  intros Hnext req res.
  destruct (Hnext req {| statusCode := statusCode res;
                         json := Core.response routeDescription :: json res;
                         trace := trace res |}) as (res' & E & C).
  exists res'. split; [exact E|exact C].
Qed.

Lemma calm_dispatch stack : noRequestValidator stack -> calm (dispatch stack).
Proof.
  induction stack as [|m stack IH]; intros Hno; cbn.
  - apply calm_ret.
  - inversion Hno as [|m' stack' Hm Hrest]; subst.
    destruct m as [rd cfg|rd|h]; [contradiction| |].
    + apply calm_responseValidator, IH, Hrest.
    + intros req res. unfold bind, getReq, getRes. cbn.
      apply (calm_calls _ (h req res) (IH Hrest)).
Qed.

Lemma noRequestValidator_handlers prefix handlers :
  noRequestValidator prefix -> noRequestValidator (prefix ++ map UserHandler handlers).
Proof.
  intros Hprefix. apply Forall_app. split; [exact Hprefix|].
  apply Forall_forall. intros m Hin. apply list_elem_of_In, in_map_iff in Hin.
  destruct Hin as (h & <- & _). exact I.
Qed.

(** X10: on a described route, when the request validation passes, the
    registered stack runs to a normal return without ever calling
    [errorHandler], whatever the handlers do with [res] and [next], and the
    request they leave is the validated one. *)
Theorem valid_request_never_calls_errorHandler
        apiDef config method path handlers routeDescription req res req' res' :
  lookupRoute apiDef path method = Some routeDescription ->
  validateRequestParts routeDescription config (req, res) = (Ok tt, (req', res')) ->
  exists res'',
    dispatch (flatten (registrarArgs apiDef config method path handlers)) (req, res)
    = (Ok tt, (req', res''))
    /\ errorHandlerCalls res'' = errorHandlerCalls res.
Proof.
  intros Hsome Hv. rewrite (dispatch_described _ _ _ _ _ _ Hsome).
  rewrite (requestValidator_passes _ _ _ _ _ Hv).
  destruct (validateRequestParts_frame routeDescription config req res)
    as (r & req0 & res0 & E & _ & _ & _ & _ & Hext).
  rewrite Hv in E. injection E as <- <- <-.
  assert (Hno : noRequestValidator
                  ((if attachResponseValidator config
                    then [ResponseValidator routeDescription] else [])
                   ++ map UserHandler handlers)).
  { apply noRequestValidator_handlers.
    destruct (attachResponseValidator config); repeat constructor. }
  destruct (calm_dispatch _ Hno req' res') as (res'' & E' & C).
  exists res''. unfold try_catch. rewrite E'. split; [reflexivity|].
  rewrite C. exact (errorHandlerCalls_extends _ _ _ isParseEvent_false Hext).
Qed.

(** X11: on a described route registered without [attachResponseValidator],
    once the request validation has passed the handlers' bodies are sent
    unchecked: after the request's own parses the stack only sends (no
    response parse), on a response whose [res.json] was Express's own. *)
Theorem without_response_validator_answers_are_unchecked
        apiDef config method path handlers routeDescription req res req' res' :
  lookupRoute apiDef path method = Some routeDescription ->
  attachResponseValidator config = false ->
  json res = [] ->
  validateRequestParts routeDescription config (req, res) = (Ok tt, (req', res')) ->
  exists res'',
    dispatch (flatten (registrarArgs apiDef config method path handlers)) (req, res)
    = (Ok tt, (req', res''))
    /\ extends isSendEvent res' res''.
Proof.
  intros Hsome Hattach Hjson Hv. rewrite (dispatch_described _ _ _ _ _ _ Hsome).
  rewrite (requestValidator_passes _ _ _ _ _ Hv). rewrite Hattach. cbn [app].
  destruct (validateRequestParts_frame routeDescription config req res)
    as (r & req0 & res0 & E & _ & _ & _ & _ & [Hjson' _]).
  rewrite Hv in E. injection E as <- <- <-.
  destruct (sendsOnly_user_handlers handlers req' res') as (res'' & E' & X);
    [congruence|].
  exists res''. unfold try_catch. rewrite E'. now split.
Qed.

(** X12: through the stack registered for a described route with the
    response validator attached, a handler that answers
    [res.status(code).json(sent)] to a valid request, under a status code
    with a registered schema, gets the parsed output sent under [code] (the
    body itself when the output is [null] or [undefined]) if [sent] parses,
    and the out-of-spec body under 500 if it does not. *)
Theorem answer_of_a_described_route
        apiDef config method path routeDescription req res req' res' code sent schema :
  lookupRoute apiDef path method = Some routeDescription ->
  attachResponseValidator config = true ->
  json res = [] ->
  validateRequestParts routeDescription config (req, res) = (Ok tt, (req', res')) ->
  Core.response routeDescription !! numberToString code = Some (Some schema) ->
  dispatch (flatten (registrarArgs apiDef config method path [Sample.answer code sent]))
           (req, res)
  = (Ok tt,
     (req',
      match parse schema sent with
      | Ok parsed =>
          {| statusCode := code; json := [Core.response routeDescription];
             trace := trace res' ++ [EvParse "response" sent;
                                     EvSend code (nullish parsed sent)] |}
      | Throw _ =>
          {| statusCode := 500; json := [Core.response routeDescription];
             trace := trace res' ++ [EvParse "response" sent;
                                     EvSend 500 outOfSpecBody] |}
      end)).
Proof.
  intros Hsome Hattach Hjson Hv Hlookup. rewrite (dispatch_described _ _ _ _ _ _ Hsome).
  rewrite (requestValidator_passes _ _ _ _ _ Hv). rewrite Hattach.
  destruct (validateRequestParts_frame routeDescription config req res)
    as (r & req0 & res0 & E & _ & _ & _ & _ & [Hjson' _]).
  rewrite Hv in E. injection E as <- <- <-.
  rewrite Hjson in Hjson'.
  destruct res' as [code' json' trace']. cbn in Hjson'. subst json'.
  unfold try_catch, responseValidator, bind, getReq, getRes, setRes. cbn.
  unfold bind, resJson. cbn.
  unfold validatedJson, try_catch, bind, getRes, zparse, record. cbn.
  rewrite Hlookup. cbn.
  destruct (parse schema sent) as [parsed|err]; cbn;
    unfold expressJson, record; cbn; rewrite <- app_assoc; reflexivity.
Qed.

(** ** The properties above at the sample API *)

Lemma valid_request_is_parsed_and_handed_on_witness :
  let req := Sample.request (JObj [("id", JStr "7")]) in
  let st' := (withParts (JObj [("id", JStr "7")]) (JObj []) JUndefined req,
              traced Sample.fresh [EvParse "path" (params req);
                                   EvParse "query" (Express.query req);
                                   EvParse "body" (Express.body req)]) in
  requestValidator Sample.getUser (Sample.config true) (ret tt) (req, Sample.fresh)
  = try_catch (ret tt) (callErrorHandler (Sample.config true)) st'
  /\ forall st'', ret tt st' = (Ok tt, st'') ->
                  requestValidator Sample.getUser (Sample.config true) (ret tt)
                                   (req, Sample.fresh) = (Ok tt, st'').
Proof.
  apply (valid_request_is_parsed_and_handed_on
           Sample.getUser (Sample.config true)
           (Sample.request (JObj [("id", JStr "7")])) Sample.fresh
           (JObj [("id", JStr "7")]) (JObj []) JUndefined);
    vm_compute; reflexivity.
Defined.

Lemma skipped_body_is_handed_on_unparsed_witness :
  let req := withParts (JObj [("id", JStr "7")]) (JObj []) (JStr "raw text")
                       (Sample.request JNull) in
  let config := {| attachResponseValidator := true;
                   skipRequestBodyValidation := true;
                   errorHandler := Sample.badRequest |} in
  requestValidator (withBodySchema (Some Sample.userSchema) Sample.getUser) config (ret tt)
                   (req, Sample.fresh)
  = try_catch (ret tt) (callErrorHandler config)
      (withParts (JObj [("id", JStr "7")]) (JObj []) (Express.body req) req,
       traced Sample.fresh [EvParse "path" (params req);
                            EvParse "query" (Express.query req)]).
Proof.
  apply (skipped_body_is_handed_on_unparsed
           Sample.getUser
           {| attachResponseValidator := true; skipRequestBodyValidation := true;
              errorHandler := Sample.badRequest |}
           (withParts (JObj [("id", JStr "7")]) (JObj []) (JStr "raw text")
                      (Sample.request JNull))
           Sample.fresh (JObj [("id", JStr "7")]) (JObj []));
    vm_compute; reflexivity.
Defined.

Lemma path_failure_stops_the_validation_witness :
  let req := Sample.request (JObj [("id", JNum 7)]) in
  requestValidator Sample.getUser (Sample.config true) (ret tt) (req, Sample.fresh)
  = callErrorHandler (Sample.config true) {| issues := ["invalid_type"] |}
      (req, traced Sample.fresh [EvParse "path" (params req)]).
Proof.
  apply (path_failure_stops_the_validation
           Sample.getUser (Sample.config true)
           (Sample.request (JObj [("id", JNum 7)])) Sample.fresh).
  vm_compute. reflexivity.
Defined.

Lemma query_failure_keeps_the_parsed_params_witness :
  let req := Sample.requestWith (JObj [("id", JStr "7"); ("extra", JNull)]) JNull in
  requestValidator Sample.getUser (Sample.config true) (ret tt) (req, Sample.fresh)
  = callErrorHandler (Sample.config true) {| issues := ["invalid_type"] |}
      (withParts (JObj [("id", JStr "7")]) (Express.query req) (Express.body req) req,
       traced Sample.fresh [EvParse "path" (params req);
                            EvParse "query" (Express.query req)]).
Proof.
  apply (query_failure_keeps_the_parsed_params
           Sample.getUser (Sample.config true)
           (Sample.requestWith (JObj [("id", JStr "7"); ("extra", JNull)]) JNull)
           Sample.fresh);
    vm_compute; reflexivity.
Defined.

Lemma undeclared_body_policy_witness :
  let req := withParts (JObj [("id", JStr "7")]) (JObj []) JNull (Sample.request JNull) in
  validateRequestParts Sample.getUser (Sample.config true) (req, Sample.fresh)
  = (Throw {| issues := ["invalid_type"] |},
     (req, traced Sample.fresh [EvParse "path" (params req);
                                EvParse "query" (Express.query req);
                                EvParse "body" JNull])).
Proof.
  apply (undeclared_body_policy
           Sample.getUser (Sample.config true)
           (withParts (JObj [("id", JStr "7")]) (JObj []) JNull (Sample.request JNull))
           Sample.fresh (JObj [("id", JStr "7")]) (JObj []));
    vm_compute; reflexivity.
Defined.

Lemma error_thrown_by_next_goes_to_errorHandler_witness :
  let req := Sample.request (JObj [("id", JStr "7")]) in
  let st' := (req, traced Sample.fresh [EvParse "path" (params req);
                                        EvParse "query" (Express.query req);
                                        EvParse "body" (Express.body req)]) in
  requestValidator Sample.getUser (Sample.config true)
                   (fun st => (Throw {| issues := ["downstream"] |}, st))
                   (req, Sample.fresh)
  = callErrorHandler (Sample.config true) {| issues := ["downstream"] |} st'.
Proof.
  apply (error_thrown_by_next_goes_to_errorHandler
           Sample.getUser (Sample.config true)
           (fun st => (Throw {| issues := ["downstream"] |}, st))
           (Sample.request (JObj [("id", JStr "7")]), Sample.fresh)
           (Sample.request (JObj [("id", JStr "7")]),
            traced Sample.fresh [EvParse "path" (JObj [("id", JStr "7")]);
                                 EvParse "query" (JObj []);
                                 EvParse "body" JUndefined]));
    vm_compute; reflexivity.
Defined.

Lemma response_parsed_output_is_sent_witness :
  let res := {| statusCode := 200; json := [Core.response Sample.getUser]; trace := [] |} in
  let sent := JObj [("id", JNum 7); ("name", JStr "John"); ("password", JStr "x")] in
  resJson sent (Sample.request JNull, res)
  = (Ok tt, (Sample.request JNull,
             traced res [EvParse "response" sent;
                         EvSend 200 (JObj [("id", JNum 7); ("name", JStr "John")])])).
Proof.
  apply (response_parsed_output_is_sent
           Sample.getUser (Sample.request JNull)
           {| statusCode := 200; json := [Core.response Sample.getUser]; trace := [] |}
           (JObj [("id", JNum 7); ("name", JStr "John"); ("password", JStr "x")])
           Sample.userSchema);
    vm_compute; reflexivity.
Defined.

Lemma invalid_request_never_reaches_the_handlers_witness :
  let req := Sample.request (JObj [("id", JNum 7)]) in
  let res' := traced Sample.fresh [EvParse "path" (params req)] in
  let stack := flatten (registrarArgs Sample.api (Sample.config true) Core.GET "/users/:id"
                                      [Sample.answer 200 (JStr "never sent")]) in
  dispatch stack (req, Sample.fresh)
  = callErrorHandler (Sample.config true) {| issues := ["invalid_type"] |} (req, res')
  /\ exists res'',
      dispatch stack (req, Sample.fresh) = (Ok tt, (req, res''))
      /\ json res'' = json Sample.fresh.
Proof.
  apply (invalid_request_never_reaches_the_handlers
           Sample.api (Sample.config true) Core.GET "/users/:id"
           [Sample.answer 200 (JStr "never sent")] Sample.getUser
           (Sample.request (JObj [("id", JNum 7)])) Sample.fresh);
    vm_compute; reflexivity.
Defined.

Lemma valid_request_never_calls_errorHandler_witness :
  let req := Sample.request (JObj [("id", JStr "7")]) in
  exists res'',
    dispatch (flatten (registrarArgs Sample.api (Sample.config true) Core.GET "/users/:id"
                                     [Sample.answer 404 (JObj [("id", JNum 7)])]))
             (req, Sample.fresh)
    = (Ok tt, (req, res''))
    /\ errorHandlerCalls res'' = errorHandlerCalls Sample.fresh.
Proof.
  apply (valid_request_never_calls_errorHandler
           Sample.api (Sample.config true) Core.GET "/users/:id"
           [Sample.answer 404 (JObj [("id", JNum 7)])] Sample.getUser
           (Sample.request (JObj [("id", JStr "7")])) Sample.fresh
           (Sample.request (JObj [("id", JStr "7")]))
           (traced Sample.fresh [EvParse "path" (JObj [("id", JStr "7")]);
                                 EvParse "query" (JObj []);
                                 EvParse "body" JUndefined]));
    vm_compute; reflexivity.
Defined.

Lemma without_response_validator_answers_are_unchecked_witness :
  let req := Sample.request (JObj [("id", JStr "7")]) in
  let res' := traced Sample.fresh [EvParse "path" (JObj [("id", JStr "7")]);
                                   EvParse "query" (JObj []);
                                   EvParse "body" JUndefined] in
  exists res'',
    dispatch (flatten (registrarArgs Sample.api (Sample.config false) Core.GET "/users/:id"
                                     [Sample.answer 404 (JObj [("id", JNum 7)])]))
             (req, Sample.fresh)
    = (Ok tt, (req, res''))
    /\ extends isSendEvent res' res''.
Proof.
  apply (without_response_validator_answers_are_unchecked
           Sample.api (Sample.config false) Core.GET "/users/:id"
           [Sample.answer 404 (JObj [("id", JNum 7)])] Sample.getUser
           (Sample.request (JObj [("id", JStr "7")])) Sample.fresh);
    vm_compute; reflexivity.
Defined.

Lemma answer_of_a_described_route_witness :
  let req := Sample.request (JObj [("id", JStr "7")]) in
  let sent := JObj [("id", JNum 7)] in
  dispatch (flatten (registrarArgs Sample.api (Sample.config true) Core.GET "/users/:id"
                                   [Sample.answer 404 sent]))
           (req, Sample.fresh)
  = (Ok tt,
     (req,
      match parse Sample.messageSchema sent with
      | Ok parsed =>
          {| statusCode := 404; json := [Core.response Sample.getUser];
             trace := [EvParse "path" (JObj [("id", JStr "7")]);
                       EvParse "query" (JObj []);
                       EvParse "body" JUndefined]
                      ++ [EvParse "response" sent; EvSend 404 (nullish parsed sent)] |}
      | Throw _ =>
          {| statusCode := 500; json := [Core.response Sample.getUser];
             trace := [EvParse "path" (JObj [("id", JStr "7")]);
                       EvParse "query" (JObj []);
                       EvParse "body" JUndefined]
                      ++ [EvParse "response" sent; EvSend 500 outOfSpecBody] |}
      end)).
Proof.
  apply (answer_of_a_described_route
           Sample.api (Sample.config true) Core.GET "/users/:id" Sample.getUser
           (Sample.request (JObj [("id", JStr "7")])) Sample.fresh
           (Sample.request (JObj [("id", JStr "7")]))
           {| statusCode := 200; json := [];
              trace := [EvParse "path" (JObj [("id", JStr "7")]);
                        EvParse "query" (JObj []);
                        EvParse "body" JUndefined] |}
           404 (JObj [("id", JNum 7)]) Sample.messageSchema);
    vm_compute; reflexivity.
Defined.

(** * Properties of the request builder *)

Import ExZodOsClient.

(** ** Strings *)






Lemma replace_absent (s pattern replacement : string) :
  indexOf pattern s = None -> replace s pattern replacement = s.
Proof. intros Hindex. unfold replace. now rewrite Hindex. Qed.



(** ** [replacePathParams] *)

Lemma get_head {V} (key : string) (v : V) (rest : Record_ V) :
  get ((key, v) :: rest) key = Some v.
Proof. cbn. now rewrite String.eqb_refl. Qed.

Lemma get_tail {V} (key k : string) (v : V) (rest : Record_ V) :
  k <> key -> get ((key, v) :: rest) k = get rest k.
Proof.
  intros Hne. cbn. destruct (String.eqb_spec key k) as [->|_]; [congruence|reflexivity].
Qed.

Lemma fold_left_agree {A B} (f g : A -> B -> A) (l : list B) (a : A) :
  (forall x b, In b l -> f x b = g x b) -> fold_left f l a = fold_left g l a.
Proof.
  revert a. induction l as [|b l IH]; intros a Hfg; [reflexivity|].
  cbn. rewrite (Hfg a b) by now left.
  apply IH. intros x b' Hin. apply Hfg. now right.
Qed.

Lemma replacePathParams_cons (url key : string) (v : PathValue) (rest : Record_ PathValue) :
  ~ In key (keys rest) ->
  replacePathParams url ((key, v) :: rest)
  = replacePathParams (replace url (":" +:+ key) (toString v)) rest.
Proof.
  intros Hfresh. unfold replacePathParams. cbn [keys map fst fold_left].
  rewrite get_head. apply fold_left_agree.
  intros x k Hin. rewrite get_tail; [reflexivity|].
  intros ->. exact (Hfresh Hin).
Qed.

Lemma replacePathParams_absent (url : string) (path : Record_ PathValue) :
  (forall key, In key (keys path) -> indexOf (":" +:+ key) url = None) ->
  replacePathParams url path = url.
Proof.
  unfold replacePathParams. generalize (keys path) as ks.
  induction ks as [|k ks IH]; intros Habsent; [reflexivity|].
  cbn [fold_left].
  assert (Hk : match get path k with
               | Some v => replace url (":" +:+ k) (toString v)
               | None => url
               end = url).
  { destruct (get path k); [|reflexivity].
    apply replace_absent, Habsent. now left. }
  rewrite Hk. apply IH. intros key Hin. apply Habsent. now right.
Qed.




(** C8: without a config the request builder returns exactly the method and
    the path template as url; with the config [{ path: { id: 7 } }] and the
    template [/users/:id] the url it returns is [/users/7]. *)
Theorem buildAxiosConfig_examples :
  (forall method template,
      buildAxiosConfig method template None
      = [("method", Val (JStr (Core.methodName method))); ("url", Val (JStr template))])
  /\ (forall method,
        get (buildAxiosConfig method "/users/:id"
               (Some {| path := Some [("id", PathNumber 7)]; header := None;
                        query := None; body := None; configRest := [] |}))
            "url"
        = Some (Val (JStr "/users/7"))).
Proof. split; intros; reflexivity. Qed.

(** * Further properties of the client *)

(** ** Objects *)

Lemma get_set {V} (o : Record_ V) (k k' : string) (v : V) :
  get (set o k v) k' = if String.eqb k k' then Some v else get o k'.
Proof.
  induction o as [|[k0 v0] o IH]; cbn; [reflexivity|].
  destruct (String.eqb_spec k0 k) as [->|Hne]; cbn.
  - now destruct (String.eqb k k').
  - rewrite IH. destruct (String.eqb_spec k0 k') as [->|_]; [|reflexivity].
    destruct (String.eqb_spec k k') as [->|_]; [congruence|reflexivity].
Qed.

Lemma get_spread_other {V} (o more : Record_ V) (k : string) :
  ~ In k (keys more) -> get (spread o more) k = get o k.
Proof.
  unfold spread. revert o. induction more as [|[k1 v1] more IH]; intros o Hk; cbn.
  - reflexivity.
  - rewrite IH by (intros Hin; apply Hk; now right).
    rewrite get_set. destruct (String.eqb_spec k1 k) as [->|_]; [|reflexivity].
    exfalso. apply Hk. now left.
Qed.

Lemma get_spread_own {V} (o more : Record_ V) (k : string) (v : V) :
  NoDup (keys more) -> In (k, v) more -> get (spread o more) k = Some v.
Proof.
  unfold spread. revert o. induction more as [|[k1 v1] more IH]; intros o Hnodup Hin.
  - destruct Hin.
  - cbn in Hnodup. apply NoDup_cons in Hnodup as [Hfresh Hnodup]. cbn.
    destruct Hin as [Heq|Hin].
    + injection Heq as -> ->.
      change (get (spread (set o k v) more) k = Some v).
      rewrite get_spread_other by (rewrite <- list_elem_of_In; exact Hfresh).
      rewrite get_set. now rewrite String.eqb_refl.
    + now apply IH.
Qed.

(** ** [isErrorOf] *)

(** X13: [isErrorOf] answers [true] exactly for an Axios error that has a
    [config] whose method and url are the given method and path and a
    [response] whose status is the given code; anything that is not an
    Axios error, an error without [config] or without [response], and any
    mismatch give [false]. *)
Theorem isErrorOf_true_iff (err : Thrown) (method_ : Core.Method) (path_ : string) (code : Z) :
  isErrorOf err method_ path_ code = true
  <-> exists c r,
      err = IsAxiosError {| config := Some c; response := Some r |}
      /\ method c = Some (Core.methodName method_)
      /\ url c = Some path_
      /\ status r = code.
Proof.
  split.
  - destruct err as [[c r]|v]; cbn; [|discriminate].
    destruct c as [[m u]|]; cbn; [|discriminate].
    destruct m as [m|]; cbn; [|discriminate].
    destruct (String.eqb_spec m (Core.methodName method_)) as [->|_]; cbn; [|discriminate].
    destruct u as [u|]; cbn; [|discriminate].
    destruct (String.eqb_spec u path_) as [->|_]; cbn; [|discriminate].
    destruct r as [[s]|]; cbn; [|discriminate].
    destruct (Z.eqb_spec s code) as [->|_]; cbn; [|discriminate].
    intros _. now eexists _, _.
  - intros (c & r & -> & Hm & Hu & Hs).
    unfold isErrorOf, differs. cbn [config response].
    now rewrite Hm, Hu, Hs, !String.eqb_refl, Z.eqb_refl.
Qed.

Lemma stringAt_built_method method_ template cfg :
  ~ In "method" (keys (configRest cfg)) ->
  stringAt (buildAxiosConfig method_ template (Some cfg)) "method"
  = Some (Core.methodName method_).
Proof.
  intros Hrest. unfold stringAt, buildAxiosConfig.
  now rewrite get_spread_other by exact Hrest.
Qed.

Lemma stringAt_built_url method_ template cfg :
  ~ In "url" (keys (configRest cfg)) ->
  stringAt (buildAxiosConfig method_ template (Some cfg)) "url"
  = Some match path cfg with
         | Some configPath => replacePathParams template configPath
         | None => template
         end.
Proof.
  intros Hrest. unfold stringAt, buildAxiosConfig.
  now rewrite get_spread_other by exact Hrest.
Qed.

(** X14: [isErrorOf] compares the error's url with the path it is given.
    For the error of a request built from a path template (the rest options
    naming neither method nor url), asking with that template answers
    [true] exactly when the status is the code and the path substitution
    left the template as it was; asking with the url that was built answers
    [true] exactly when the status is the code. *)
Theorem isErrorOf_on_a_built_request
        (method_ : Core.Method) (template : string) (cfg : Config) (answered code : Z) :
  ~ In "method" (keys (configRest cfg)) ->
  ~ In "url" (keys (configRest cfg)) ->
  let built := match path cfg with
               | Some configPath => replacePathParams template configPath
               | None => template
               end in
  let err := rejection (buildAxiosConfig method_ template (Some cfg)) answered in
  (isErrorOf err method_ template code = true <-> answered = code /\ built = template)
  /\ (isErrorOf err method_ built code = true <-> answered = code).
Proof.
  intros Hmethod Hurl built err. unfold err, rejection, isErrorOf.
  cbn [config response method url status].
  rewrite (stringAt_built_method _ _ _ Hmethod), (stringAt_built_url _ _ _ Hurl).
  fold built. unfold differs. rewrite !String.eqb_refl. cbn [negb].
  destruct (Z.eqb_spec answered code) as [->|Hne];
    destruct (String.eqb_spec built template) as [->|Hne']; cbn [negb];
    intuition congruence.
Qed.

(** ** [buildAxiosConfig] with a config *)

(** X15: the rest options are merged last and win: every property of the
    rest of the config is a property of the request descriptor with the
    same value, [method] and [url] included. *)
Theorem rest_options_are_merged_last
        (method_ : Core.Method) (template : string) (cfg : Config) (k : string)
        (v : AxiosValue) :
  NoDup (keys (configRest cfg)) ->
  In (k, v) (configRest cfg) ->
  get (buildAxiosConfig method_ template (Some cfg)) k = Some v.
Proof. intros Hnodup Hin. unfold buildAxiosConfig. now apply get_spread_own. Qed.

(** X16: what the rest options do not name is passed through: [headers] is
    the config's [header], [params] its [query], [data] its [body] (each
    [undefined] when absent), [paramsSerializer] the bracket serializer,
    [method] the method, and [url] the template after path substitution,
    or the template itself when the config has no [path]. *)
Theorem config_is_passed_through
        (method_ : Core.Method) (template : string) (cfg : Config) :
  let built := buildAxiosConfig method_ template (Some cfg) in
  let absent k := ~ In k (keys (configRest cfg)) in
  (absent "method" -> get built "method" = Some (Val (JStr (Core.methodName method_))))
  /\ (absent "url" ->
      get built "url"
      = Some (Val (JStr match path cfg with
                        | Some configPath => replacePathParams template configPath
                        | None => template
                        end)))
  /\ (absent "headers" -> get built "headers" = Some (orUndefined (header cfg)))
  /\ (absent "params" -> get built "params" = Some (orUndefined (query cfg)))
  /\ (absent "paramsSerializer" -> get built "paramsSerializer" = Some BracketsSerializer)
  /\ (absent "data" -> get built "data" = Some (orUndefined (body cfg))).
Proof.
  cbv zeta. unfold buildAxiosConfig.
  repeat split; intros Habsent; now rewrite get_spread_other by exact Habsent.
Qed.

(** ** [replacePathParams], map by map *)

(** X17: substituting with a map is substituting with its first keys and
    then, in the url that gives, with the remaining ones: the keys are
    taken one after the other, each on the result of the one before. *)
Theorem replacePathParams_app (url_ : string) (p1 p2 : Record_ PathValue) :
  NoDup (keys (p1 ++ p2)) ->
  replacePathParams url_ (p1 ++ p2)
  = replacePathParams (replacePathParams url_ p1) p2.
Proof.
  revert url_. induction p1 as [|[k v] p1 IH]; intros url_ Hnodup; [reflexivity|].
  cbn in Hnodup. apply NoDup_cons in Hnodup as [Hfresh Hnodup].
  rewrite list_elem_of_In in Hfresh.
  change (((k, v) :: p1) ++ p2) with ((k, v) :: (p1 ++ p2)).
  rewrite replacePathParams_cons by exact Hfresh.
  rewrite IH by exact Hnodup.
  rewrite (replacePathParams_cons url_ k v p1); [reflexivity|].
  intros Hin. apply Hfresh. try unfold keys. rewrite map_app.
  apply in_or_app. now left.
Qed.

(** ** The properties above at [GET /users/:id] *)

Lemma isErrorOf_true_iff_witness :
  isErrorOf (IsAxiosError {| config := Some {| method := Some "get";
                                               url := Some "/users/:id" |};
                             response := Some {| status := 404 |} |})
            Core.GET "/users/:id" 404 = true.
Proof.
  apply (proj2 (isErrorOf_true_iff _ Core.GET "/users/:id" 404)).
  eexists _, _. repeat split; reflexivity.
Defined.

Lemma isErrorOf_on_a_built_request_witness :
  let cfg := {| path := Some [("id", PathNumber 7)]; header := None; query := None;
                body := None; configRest := [("timeout", Val (JNum 1000))] |} in
  let err := rejection (buildAxiosConfig Core.GET "/users/:id" (Some cfg)) 404 in
  (isErrorOf err Core.GET "/users/:id" 404 = true
   <-> 404%Z = 404%Z /\ replacePathParams "/users/:id" [("id", PathNumber 7)] = "/users/:id")
  /\ (isErrorOf err Core.GET (replacePathParams "/users/:id" [("id", PathNumber 7)]) 404
      = true <-> 404%Z = 404%Z).
Proof.
  apply (isErrorOf_on_a_built_request
           Core.GET "/users/:id"
           {| path := Some [("id", PathNumber 7)]; header := None; query := None;
              body := None; configRest := [("timeout", Val (JNum 1000))] |} 404 404);
    cbn; intros [H|[]]; discriminate H.
Defined.

Lemma rest_options_are_merged_last_witness :
  get (buildAxiosConfig Core.GET "/users/:id"
         (Some {| path := Some [("id", PathNumber 7)]; header := None; query := None;
                  body := None;
                  configRest := [("url", Val (JStr "/elsewhere"));
                                 ("timeout", Val (JNum 1000))] |}))
      "url"
  = Some (Val (JStr "/elsewhere")).
Proof.
  apply (rest_options_are_merged_last
           Core.GET "/users/:id"
           {| path := Some [("id", PathNumber 7)]; header := None; query := None;
              body := None;
              configRest := [("url", Val (JStr "/elsewhere"));
                             ("timeout", Val (JNum 1000))] |}).
  - cbn. repeat constructor; cbn; rewrite list_elem_of_In; cbn; intuition discriminate.
  - cbn. now left.
Defined.

Lemma config_is_passed_through_witness :
  let cfg := {| path := None; header := Some (JObj [("accept", JStr "text/plain")]);
                query := Some (JObj [("tags", JArr [JStr "a"; JStr "b"])]);
                body := None; configRest := [("timeout", Val (JNum 1000))] |} in
  let built := buildAxiosConfig Core.POST "/users" (Some cfg) in
  get built "method" = Some (Val (JStr "post"))
  /\ get built "url" = Some (Val (JStr "/users"))
  /\ get built "headers" = Some (Val (JObj [("accept", JStr "text/plain")]))
  /\ get built "params" = Some (Val (JObj [("tags", JArr [JStr "a"; JStr "b"])]))
  /\ get built "paramsSerializer" = Some BracketsSerializer
  /\ get built "data" = Some (Val JUndefined).
Proof.
  destruct (config_is_passed_through
              Core.POST "/users"
              {| path := None; header := Some (JObj [("accept", JStr "text/plain")]);
                 query := Some (JObj [("tags", JArr [JStr "a"; JStr "b"])]);
                 body := None; configRest := [("timeout", Val (JNum 1000))] |})
    as (H1 & H2 & H3 & H4 & H5 & H6).
  cbv zeta.
  refine (conj (H1 _) (conj (H2 _) (conj (H3 _) (conj (H4 _) (conj (H5 _) (H6 _))))));
    cbn; intros [H|[]]; discriminate H.
Defined.

Lemma replacePathParams_app_witness :
  replacePathParams "/users/:id/:tab" ([("id", PathNumber 7)] ++ [("tab", PathString "posts")])
  = replacePathParams (replacePathParams "/users/:id/:tab" [("id", PathNumber 7)])
                      [("tab", PathString "posts")].
Proof.
  apply (replacePathParams_app "/users/:id/:tab"
           [("id", PathNumber 7)] [("tab", PathString "posts")]).
  cbn. repeat constructor; cbn; rewrite list_elem_of_In; cbn; intuition discriminate.
Defined.
